(** * The Express server of the gallery sample: [src/server/server.js]

    A shallow embedding of the request handlers of [server.js]:
    - [handleContentRequest], the proxy to the content server;
    - the ['/content/'] middleware, which consults the auth gate first;
    - the [server.get('*')] handler, which matches a route, prefetches its
      data and renders;
    - the order in which the Express application tries them.

    Handlers are run in a small trace monad: what a handler does to the
    outside world (calls of collaborators, calls on the response object, the
    outbound request) is recorded as a list of events, and a handler either
    returns or throws. *)

From Stdlib Require Import Bool Ascii String List ZArith Lia.
Import ListNotations.

Open Scope string_scope.

(** ** JavaScript values and string primitives *)

Module Js.

(** The values the handlers look at.  Only truthiness and string contents
    are ever inspected, so numbers are kept as integers and an object is
    just its reference. *)
Inductive value :=
| Undefined
| Null
| Boolean (b : bool)
| Num (n : Z)
| Str (s : string)
| Obj (ref : nat).

(** [if (v)]: the falsy values are undefined, null, false, 0 and ''. *)
Definition truthy (v : value) : bool :=
  match v with
  | Undefined | Null => false
  | Boolean b => b
  | Num n => negb (n =? 0)%Z
  | Str s => negb (s =? "")
  | Obj _ => true
  end.

(** [s.charAt(i)]: the one-character string at index [i], and the empty
    string when [i] is out of range (in particular for [i = -1]). *)
Definition charAt (s : string) (i : Z) : string :=
  if (i <? 0)%Z then ""
  else match String.get (Z.to_nat i) s with
       | Some c => String c ""
       | None => ""
       end.

(** [s.length] *)
Definition length (s : string) : Z := Z.of_nat (String.length s).

(** [s.startsWith(p)] *)
Definition startsWith (s p : string) : bool := String.prefix p s.

(** What a promise has become by the time its [then] callbacks could run. *)
Inductive promise (A : Type) :=
| Resolved (a : A)
| Rejected (reason : value)
| Pending.
Arguments Resolved {A} a.
Arguments Rejected {A} reason.
Arguments Pending {A}.

(** What can be thrown: the [TypeError] of a property read on
    [undefined], or a value thrown by a collaborator. *)
Inductive exn :=
| TypeError
| Thrown (v : value).

End Js.

(** ** Requests, responses and events *)

Definition headers := list (string * Js.value).

(** The inbound request, as far as the handlers read it. [body] is the
    sequence of chunks the request stream delivers. *)
Record request := mkRequest {
  method : string;
  url : string;
  query : Js.value;
  body : list string
}.

(** The [options] object handed to [http.request]: [{}] or
    [{ headers: { Authorization: authValue } }]. *)
Record requestOptions := mkOptions {
  opt_headers : option headers
}.

(** The upstream response handed to the callback of [http.request]. *)
Record proxyResponse := mkProxyResponse {
  statusCode : Z;
  resp_headers : headers;
  resp_body : list string
}.

(** What the outbound transport does with a request: it rejects the URL
    synchronously, it never calls back, or it calls back with a response. *)
Inductive transportResult :=
| InvalidUrl (e : Js.exn)
| NoResponse
| Responds (r : proxyResponse).

(** The render context [{ data, requestQueryParams }]; [notFound] reads as
    [undefined] until the renderer sets it. *)
Record context := mkContext {
  data : Js.value;
  requestQueryParams : Js.value;
  notFound : Js.value
}.

(** A route descriptor of the route table. *)
Record route := mkRoute {
  path : string;
  fetchInitialData : option (request -> Js.promise Js.value)
}.

(** The object [{}] used when no route matches. *)
Definition emptyRoute : route :=
  {| path := ""; fetchInitialData := None |}.

Inductive event :=
| CallIsAuthNeeded
| CallGetAuthValue
| CallRequest (secure : bool) (target : string) (options : requestOptions)
| ProxyWrite (chunk : string)
| ProxyEnd
| ResWriteHead (code : Z) (hs : headers)
| ResWrite (chunk : string)
| ResEnd
| CallFetchInitialData (r : route) (req : request)
| CallRenderer (req : request) (ctx : context)
| ResStatus (code : Z)
| ResSend (content : string)
| UnhandledRejection (e : Js.exn)
| ServeStatic (req : request)
| FinalHandler (req : request)
| RouterOptions (req : request)
| FinalError (req : request) (e : Js.exn).

(** ** The trace monad *)

Inductive outcome (A : Type) :=
| Ok (a : A)
| Throw (e : Js.exn).
Arguments Ok {A} a.
Arguments Throw {A} e.

Definition M (A : Type) : Type := list event * outcome A.

Definition ret {A} (a : A) : M A := ([], Ok a).

Definition throw {A} (e : Js.exn) : M A := ([], Throw e).

Definition emit (ev : event) : M unit := ([ev], Ok tt).

Definition bind {A B} (m : M A) (k : A -> M B) : M B :=
  match m with
  | (t, Ok a) => let (t', r) := k a in ((t ++ t')%list, r)
  | (t, Throw e) => (t, Throw e)
  end.

Notation "x <- m ;; k" := (bind m (fun x => k))
  (at level 61, m at next level, right associativity).
Notation "m ;; k" := (bind m (fun _ => k))
  (at level 61, right associativity).

Definition trace {A} (m : M A) : list event := fst m.
Definition result {A} (m : M A) : outcome A := snd m.

(** [for each chunk: emit (f chunk)] *)
Fixpoint forEach (f : string -> event) (chunks : list string) : M unit :=
  match chunks with
  | [] => ret tt
  | c :: cs => emit (f c) ;; forEach f cs
  end.

(** [p.then(cb)] with nothing chained after it: the callback runs when the
    promise resolves; an exception inside the callback, or a rejection of
    [p], surfaces as an unhandled rejection and never as a throw of the
    caller. *)
Definition then_ {A} (p : Js.promise A) (cb : A -> M unit) : M unit :=
  match p with
  | Js.Resolved a =>
      match cb a with
      | (t, Ok _) => (t, Ok tt)
      | (t, Throw e) => ((t ++ [UnhandledRejection e])%list, Ok tt)
      end
  | Js.Rejected reason => emit (UnhandledRejection (Js.Thrown reason))
  | Js.Pending => ret tt
  end.

(** ** URL construction (lines 44-50) *)

(** The local [content] of [handleContentRequest]. *)
Definition contentSegment (SERVER_URL reqUrl : string) : string :=
  let content :=
    if Js.charAt SERVER_URL (Js.length SERVER_URL - 1) =? "/"
    then "content" else "/content" in
  if negb (Js.charAt reqUrl 0 =? "/") then content ++ "/" else content.

(** [const oceUrl = `${process.env.SERVER_URL}${content}${req.url}`] *)
Definition oceUrl (SERVER_URL reqUrl : string) : string :=
  SERVER_URL ++ contentSegment SERVER_URL reqUrl ++ reqUrl.

(** The [options] of the outbound request (lines 52-56). *)
Definition requestOptionsFor (authValue : Js.value) : requestOptions :=
  if Js.truthy authValue
  then {| opt_headers := Some [("Authorization", authValue)] |}
  else {| opt_headers := None |}.

(** [req.pipe(proxy, { end: true })]: every chunk of the inbound body is
    written to the outbound request, which is then ended. *)
Definition pipeToProxy (req : request) : M unit :=
  forEach ProxyWrite (body req) ;; emit ProxyEnd.

(** [writeProxyContent] (lines 59-64): [res.writeHead] with the upstream
    status and headers, then [proxyResponse.pipe(res, { end: true })]. *)
Definition writeProxyContent (proxyResponse : proxyResponse) : M unit :=
  emit (ResWriteHead (statusCode proxyResponse) (resp_headers proxyResponse)) ;;
  forEach ResWrite (resp_body proxyResponse) ;;
  emit ResEnd.

Section Server.

(** [process.env.SERVER_URL]; [None] when the variable is not set. *)
Variable SERVER_URL : option string.

(** The outbound transport ([http.request] / [https.request]). *)
Variable upstream : bool -> string -> requestOptions -> transportResult.

(** [handleContentRequest(req, res, authValue)] (lines 38-76). *)
Definition handleContentRequest (req : request) (authValue : Js.value)
  : M unit :=
  if negb (method req =? "GET") then ret tt
  else
    match SERVER_URL with
    | None => throw Js.TypeError
    | Some base =>
        let target := oceUrl base (url req) in
        let options := requestOptionsFor authValue in
        let secure := Js.startsWith target "https" in
        emit (CallRequest secure target options) ;;
        match upstream secure target options with
        | InvalidUrl e => throw e
        | NoResponse => pipeToProxy req
        | Responds proxyResponse =>
            pipeToProxy req ;; writeProxyContent proxyResponse
        end
    end.

(** The auth gate of [server-config-utils]: whether a credential is needed
    and what [getAuthValue()] becomes. *)
Variable isAuthNeeded : bool.
Variable getAuthValue : Js.promise Js.value.

(** The middleware mounted on ['/content/'] (lines 93-101). *)
Definition contentMiddleware (req : request) : M unit :=
  emit CallIsAuthNeeded ;;
  if isAuthNeeded then
    emit CallGetAuthValue ;;
    then_ getAuthValue (fun authValue => handleContentRequest req authValue)
  else handleContentRequest req (Js.Str "").

(** The route table, [matchPath] of react-router and the renderer. *)
Variable Routes : list route.
Variable matchPath : string -> route -> bool.
Variable renderer : request -> context -> outcome (string * context).

(** [Routes.find((route) => matchPath(req.url, route)) || {}] *)
Definition activeRoute (req : request) : route :=
  match find (matchPath (url req)) Routes with
  | Some r => r
  | None => emptyRoute
  end.

(** The [then] callback of the render handler (lines 113-127). *)
Definition renderAndSend (req : request) (d : Js.value) : M unit :=
  let ctx := {| data := d; requestQueryParams := query req;
                notFound := Js.Undefined |} in
  emit (CallRenderer req ctx) ;;
  match renderer req ctx with
  | Throw e => throw e
  | Ok (content, ctx') =>
      (if Js.truthy (notFound ctx') then emit (ResStatus 404) else ret tt) ;;
      emit (ResSend content)
  end.

(** The handler of [server.get('*')] (lines 106-128). *)
Definition renderHandler (req : request) : M unit :=
  let r := activeRoute req in
  promise <- match fetchInitialData r with
             | Some f => emit (CallFetchInitialData r req) ;; ret (f req)
             | None => ret (Js.Resolved Js.Undefined)
             end ;;
  then_ promise (renderAndSend req).

End Server.

(** ** The Express application (lines 33, 93 and 106)

    The application tries its handlers in the order of registration:
    [express.static('public')], the middleware mounted on ['/content/'], and
    the [get('*')] route.

    Express 4 takes the pathname of the request target from [parseurl].
    For a target in origin form (it begins with a slash and holds none of
    the characters that make [parseurl] leave its fast path) the pathname is
    the target up to its first question mark, and there is no scheme and
    host in front.  The mount then follows the router: the pathname matches
    [^\/content\/?(?=\/|$)] without regard to case, the matched text is cut
    off [req.url], and a leading slash is put back when the rest has none.
    Every other target goes through Node's [url.parse], which is taken as a
    parameter. *)

Definition lower (c : ascii) : ascii :=
  let n := nat_of_ascii c in
  if ((65 <=? n) && (n <=? 90))%nat then ascii_of_nat (n + 32) else c.

Fixpoint lowercase (s : string) : string :=
  match s with
  | EmptyString => EmptyString
  | String c r => String (lower c) (lowercase r)
  end.

(** The part of a URL before its query string. *)
Fixpoint pathname (u : string) : string :=
  match u with
  | EmptyString => EmptyString
  | String c r => if (c =? "?")%char then EmptyString else String c (pathname r)
  end.

(** The characters on which [parseurl] gives up its fast path: tab, line
    feed, form feed, carriage return, space, [#] and the no-break space. *)
Definition leavesFastPath (c : ascii) : bool :=
  existsb (Nat.eqb (nat_of_ascii c)) [9; 10; 12; 13; 32; 35; 160]%nat.

Fixpoint anyChar (f : ascii -> bool) (s : string) : bool :=
  match s with
  | EmptyString => false
  | String c r => f c || anyChar f r
  end.

(** A request target in origin form, parsed on the fast path. *)
Definition originForm (u : string) : bool :=
  (Js.charAt u 0 =? "/") && negb (anyChar leavesFastPath u).

(** How many characters of the pathname the mount ['/content/'] matches;
    [None] when it does not match. *)
Definition mountLength (u : string) : option nat :=
  let p := pathname u in
  if lowercase (substring 0 8 p) =? "/content" then
    match substring 8 (String.length p - 8) p with
    | EmptyString => Some 8%nat
    | String "/" EmptyString => Some 9%nat
    | String "/" (String "/" _) => Some 9%nat
    | String "/" _ => Some 8%nat
    | _ => None
    end
  else None.

(** [req.url] as the mounted middleware sees it, for a target in origin
    form. *)
Definition fastMount (u : string) : option string :=
  match mountLength u with
  | Some n =>
      let rest := substring n (String.length u - n) u in
      Some (if Js.charAt rest 0 =? "/" then rest else "/" ++ rest)
  | None => None
  end.

(** What the router makes of a request target: [None] when the target has
    no pathname (no handler is tried), [Some None] when the pathname is not
    under the mount, [Some (Some u)] when it is, with [u] the [req.url] of
    the mounted middleware.  [slowPath] stands for targets outside origin
    form. *)
Definition routed (slowPath : string -> option (option string)) (u : string)
  : option (option string) :=
  if originForm u then Some (fastMount u) else slowPath u.

Definition mountedUrl (slowPath : string -> option (option string))
  (u : string) : option string :=
  match routed slowPath u with
  | Some (Some u') => Some u'
  | _ => None
  end.

(** Which handler of the application took the request. *)
Inductive handledBy :=
| StaticFiles
| ContentProxy
| RenderPipeline
| NoHandler.

(** A [get] route also answers [HEAD] requests. *)
Definition getRouteHandles (m : string) : bool :=
  (m =? "GET") || (m =? "HEAD").

(** An exception that leaves a handler is caught by the router and ends in
    the framework's error handler. *)
Definition finalOnThrow (req : request) (m : M unit) : M unit :=
  match m with
  | (t, Ok _) => (t, Ok tt)
  | (t, Throw e) => ((t ++ [FinalError req e])%list, Ok tt)
  end.

Section Application.

Variable SERVER_URL : option string.
Variable upstream : bool -> string -> requestOptions -> transportResult.
Variable isAuthNeeded : bool.
Variable getAuthValue : Js.promise Js.value.
Variable Routes : list route.
Variable matchPath : string -> route -> bool.
Variable renderer : request -> context -> outcome (string * context).

(** Whether [express.static('public')] answers the request itself. *)
Variable staticServes : request -> bool.

(** Node's [url.parse] and the router on targets outside origin form. *)
Variable slowPath : string -> option (option string).

(** A request that no handler took: the router answers an OPTIONS request
    itself, with the methods of the [get('*')] route, and leaves every other
    one to the framework's final handler. *)
Definition unhandled (req : request) : M unit :=
  if method req =? "OPTIONS" then emit (RouterOptions req)
  else emit (FinalHandler req).

Definition dispatch (req : request) : handledBy * M unit :=
  if staticServes req then (StaticFiles, emit (ServeStatic req))
  else
    match routed slowPath (url req) with
    | None => (NoHandler, emit (FinalHandler req))
    | Some (Some u) =>
        (ContentProxy,
         finalOnThrow req
           (contentMiddleware SERVER_URL upstream isAuthNeeded getAuthValue
              {| method := method req; url := u;
                 query := query req; body := body req |}))
    | Some None =>
        if getRouteHandles (method req)
        then (RenderPipeline,
              finalOnThrow req (renderHandler Routes matchPath renderer req))
        else (NoHandler, unhandled req)
    end.

End Application.

(** ** The response object

    The inbound response is known by the calls the handlers make on it, in
    their order.  What Express and Node make of these calls (headers of
    their own, the body of a HEAD request, conditional requests) is not
    part of the handlers and is not modelled. *)

(** Events that are calls on the inbound response. *)
Definition onResponse (ev : event) : bool :=
  match ev with
  | ResWriteHead _ _ | ResWrite _ | ResEnd | ResStatus _ | ResSend _ => true
  | _ => false
  end.

Definition response := list event.

(** A response nobody has touched. *)
Definition freshResponse : response := [].

Definition applyEvent (r : response) (ev : event) : response :=
  if onResponse ev then (r ++ [ev])%list else r.

Definition respond (t : list event) : response :=
  fold_left applyEvent t freshResponse.

(** Events that are calls on the outbound transport. *)
Definition onTransport (ev : event) : bool :=
  match ev with
  | CallRequest _ _ _ | ProxyWrite _ | ProxyEnd => true
  | _ => false
  end.

(** ** Words of the specification about slashes *)

Fixpoint lastChar (s : string) : option ascii :=
  match s with
  | EmptyString => None
  | String c EmptyString => Some c
  | String _ r => lastChar r
  end.

(** The base URL without its trailing slash, if it has one. *)
Fixpoint chopTrailingSlash (s : string) : string :=
  match s with
  | EmptyString => EmptyString
  | String c EmptyString => if (c =? "/")%char then EmptyString else s
  | String c r => String c (chopTrailingSlash r)
  end.

(** The request path without its leading slash, if it has one. *)
Definition chopLeadingSlash (s : string) : string :=
  match s with
  | String "/" r => r
  | _ => s
  end.

(** Whether [needle] occurs somewhere in [hay]. *)
Fixpoint occurs (needle hay : string) : bool :=
  match hay with
  | EmptyString => String.prefix needle EmptyString
  | String _ r => String.prefix needle hay || occurs needle r
  end.

(** ** Traces in closed form *)

(** What the outbound transport and the upstream response add to the trace
    once [http.request] has been called. *)
Definition afterRequest (req : request) (tr : transportResult) : M unit :=
  match tr with
  | InvalidUrl e => ([], Throw e)
  | NoResponse => ((map ProxyWrite (body req) ++ [ProxyEnd])%list, Ok tt)
  | Responds r =>
      ((map ProxyWrite (body req) ++ [ProxyEnd]
        ++ ResWriteHead (statusCode r) (resp_headers r)
        :: map ResWrite (resp_body r) ++ [ResEnd])%list,
       Ok tt)
  end.

(** The credential handed to the proxy: a string, or [undefined] when
    there is none. *)
Definition credentialValue (cred : option string) : Js.value :=
  match cred with
  | Some s => Js.Str s
  | None => Js.Undefined
  end.

Definition isCallRequest (ev : event) : bool :=
  match ev with
  | CallRequest _ _ _ => true
  | _ => false
  end.

Definition isCallRenderer (ev : event) : bool :=
  match ev with
  | CallRenderer _ _ => true
  | _ => false
  end.

(** The promise the render handler waits for, and the call that made it. *)
Definition prefetchPromise (r : route) (req : request)
  : Js.promise Js.value :=
  match fetchInitialData r with
  | Some f => f req
  | None => Js.Resolved Js.Undefined
  end.

Definition prefetchCalls (r : route) (req : request) : list event :=
  match fetchInitialData r with
  | Some _ => [CallFetchInitialData r req]
  | None => []
  end.

(** The context the renderer is called with. *)
Definition freshContext (req : request) (d : Js.value) : context :=
  {| data := d; requestQueryParams := query req; notFound := Js.Undefined |}.

(** ** A small deployment, for running the handlers *)

Module Sample.

Definition logoResponse : proxyResponse :=
  {| statusCode := 200;
     resp_headers := [("content-type", Js.Str "image/png");
                      ("cache-control", Js.Str "max-age=60")];
     resp_body := ["PNG"; "DATA"] |}.

Definition contentServer (_ : bool) (_ : string) (_ : requestOptions)
  : transportResult :=
  Responds logoResponse.

Definition routes : list route :=
  [ {| path := "/about"; fetchInitialData := None |};
    {| path := "/";
       fetchInitialData := Some (fun _ => Js.Resolved (Js.Str "home")) |} ].

(** Exact match of the URL against the route's path. *)
Definition exactPath (u : string) (r : route) : bool := u =? path r.

(** Renders the known pages, and a not-found page for everything else. *)
Definition pages (req : request) (ctx : context)
  : outcome (string * context) :=
  if (url req =? "/about") || (url req =? "/")
  then Ok ("<html>page</html>", ctx)
  else Ok ("<html>not found</html>",
           {| data := data ctx;
              requestQueryParams := requestQueryParams ctx;
              notFound := Js.Boolean true |}).

Definition noStatic (_ : request) : bool := false.

(** Targets outside origin form: a pathname that is not under the mount. *)
Definition plainParse (_ : string) : option (option string) := Some None.

Definition getLogo : request :=
  {| method := "GET"; url := "/assets/logo.png";
     query := Js.Undefined; body := [] |}.

Definition postLogo : request :=
  {| method := "POST"; url := "/assets/logo.png";
     query := Js.Undefined; body := ["payload"] |}.

Definition getAbout : request :=
  {| method := "GET"; url := "/about"; query := Js.Undefined; body := [] |}.


Definition getUnknown : request :=
  {| method := "GET"; url := "/unknown";
     query := Js.Undefined; body := [] |}.

Definition getHome : request :=
  {| method := "GET"; url := "/"; query := Js.Undefined; body := [] |}.

End Sample.

(** ** Start-up (line 133) *)

(** [process.env.NAME]: the string, or [undefined] when the variable is
    not set. *)
Definition envValue (v : option string) : Js.value :=
  match v with
  | Some s => Js.Str s
  | None => Js.Undefined
  end.

(** [a || b] *)
Definition jsOr (a b : Js.value) : Js.value :=
  if Js.truthy a then a else b.

(** [const port = process.env.EXPRESS_SERVER_PORT || 8080] *)
Definition port (EXPRESS_SERVER_PORT : option string) : Js.value :=
  jsOr (envValue EXPRESS_SERVER_PORT) (Js.Num 8080).

(** ** Kinds of events *)

(** Calls on the auth gate. *)
Definition onAuthGate (ev : event) : bool :=
  match ev with
  | CallIsAuthNeeded | CallGetAuthValue => true
  | _ => false
  end.

(** What only the render handler does: prefetch, render, [res.status],
    [res.send]. *)
Definition onRenderPath (ev : event) : bool :=
  match ev with
  | CallFetchInitialData _ _ | CallRenderer _ _ | ResStatus _ | ResSend _ =>
      true
  | _ => false
  end.

(** What only the content middleware does: the auth gate, the outbound
    transport, [res.writeHead] and the piped body. *)
Definition onContentPath (ev : event) : bool :=
  match ev with
  | CallIsAuthNeeded | CallGetAuthValue
  | CallRequest _ _ _ | ProxyWrite _ | ProxyEnd
  | ResWriteHead _ _ | ResWrite _ | ResEnd => true
  | _ => false
  end.

Definition isResSend (ev : event) : bool :=
  match ev with
  | ResSend _ => true
  | _ => false
  end.

Definition isCallFetchInitialData (ev : event) : bool :=
  match ev with
  | CallFetchInitialData _ _ => true
  | _ => false
  end.

(** The [headers] option of every outbound request of a trace. *)
Definition requestHeaders (t : list event) : list (option headers) :=
  flat_map (fun ev => match ev with
                      | CallRequest _ _ options => [opt_headers options]
                      | _ => []
                      end) t.

(** ** Collaborators that fail *)

Module Faulty.

(** A content server that never answers. *)
Definition silentServer (_ : bool) (_ : string) (_ : requestOptions)
  : transportResult :=
  NoResponse.

(** A route table whose only route never finishes loading its data. *)
Definition slowRoutes : list route :=
  [ {| path := "/about"; fetchInitialData := Some (fun _ => Js.Pending) |} ].

(** A renderer that throws. *)
Definition brokenRenderer (_ : request) (_ : context)
  : outcome (string * context) :=
  Throw (Js.Thrown (Js.Str "render failed")).

End Faulty.

(** * Properties *)

(** ** The trace monad *)

Lemma bind_emit {B} (ev : event) (k : unit -> M B) :
  bind (emit ev) k = (ev :: trace (k tt), result (k tt)).
Proof.
  unfold bind, emit, trace, result. destruct (k tt) as [t r]. reflexivity.
Qed.

Lemma bind_ret {A B} (a : A) (k : A -> M B) : bind (ret a) k = k a.
Proof.
  unfold bind, ret. destruct (k a) as [t r]. reflexivity.
Qed.

Lemma forEach_map (f : string -> event) (chunks : list string) :
  forEach f chunks = (map f chunks, Ok tt).
Proof.
  induction chunks as [|c cs IH]; cbn [forEach map].
  - reflexivity.
  - rewrite bind_emit, IH. reflexivity.
Qed.

Lemma pipeToProxy_trace (req : request) :
  pipeToProxy req = ((map ProxyWrite (body req) ++ [ProxyEnd])%list, Ok tt).
Proof.
  unfold pipeToProxy. rewrite forEach_map. reflexivity.
Qed.

Lemma writeProxyContent_trace (r : proxyResponse) :
  writeProxyContent r =
  (ResWriteHead (statusCode r) (resp_headers r)
     :: (map ResWrite (resp_body r) ++ [ResEnd])%list,
   Ok tt).
Proof.
  unfold writeProxyContent. rewrite bind_emit, forEach_map. reflexivity.
Qed.

Lemma handleContentRequest_GET SERVER_URL upstream req authValue :
  method req = "GET" ->
  handleContentRequest SERVER_URL upstream req authValue =
  match SERVER_URL with
  | None => ([], Throw Js.TypeError)
  | Some base =>
      let target := oceUrl base (url req) in
      let options := requestOptionsFor authValue in
      let secure := Js.startsWith target "https" in
      (CallRequest secure target options
         :: trace (afterRequest req (upstream secure target options)),
       result (afterRequest req (upstream secure target options)))
  end.
Proof.
  intros Hm. unfold handleContentRequest.
  rewrite Hm, String.eqb_refl. cbn [negb].
  destruct SERVER_URL as [base|]; [|reflexivity].
  cbv zeta.
  rewrite bind_emit.
  destruct (upstream _ _ _) as [e| |r]; simpl.
  - reflexivity.
  - rewrite pipeToProxy_trace. reflexivity.
  - rewrite pipeToProxy_trace, writeProxyContent_trace.
    unfold bind, trace, result. simpl. rewrite <- app_assoc. reflexivity.
Qed.

Lemma handleContentRequest_other SERVER_URL upstream req authValue :
  method req <> "GET" ->
  handleContentRequest SERVER_URL upstream req authValue = ([], Ok tt).
Proof.
  intros Hm. unfold handleContentRequest.
  apply String.eqb_neq in Hm. rewrite Hm. reflexivity.
Qed.

(** ** URL construction *)

Lemma append_assoc (a b c : string) : (a ++ b) ++ c = a ++ (b ++ c).
Proof.
  induction a as [|x a IH]; simpl; [reflexivity | now rewrite IH].
Qed.

Lemma get_length (c : ascii) (s : string) :
  String.get (String.length s) (String c s) = lastChar (String c s).
Proof.
  revert c. induction s as [|d r IH]; intros c.
  - reflexivity.
  - change (String.get (String.length r) (String d r)
            = lastChar (String d r)).
    apply IH.
Qed.

(** The test of line 45 is a test on the last character. *)
Lemma charAt_last (s : string) :
  Js.charAt s (Js.length s - 1) =
  match lastChar s with
  | Some c => String c ""
  | None => ""
  end.
Proof.
  destruct s as [|c r].
  - reflexivity.
  - unfold Js.charAt, Js.length.
    replace (Z.of_nat (String.length (String c r)) - 1)%Z
      with (Z.of_nat (String.length r)) by (simpl String.length; lia).
    destruct (Z.ltb_spec (Z.of_nat (String.length r)) 0) as [H|_]; [lia|].
    rewrite Nat2Z.id, get_length.
    destruct (lastChar (String c r)); reflexivity.
Qed.

Lemma one_char_eqb (c d : ascii) :
  (String c "" =? String d "") = (c =? d)%char.
Proof.
  simpl. destruct (c =? d)%char; reflexivity.
Qed.

Lemma chop_with_slash (s : string) :
  lastChar s = Some "/"%char -> s = chopTrailingSlash s ++ "/".
Proof.
  induction s as [|c r IH]; intros H.
  - discriminate.
  - destruct r as [|d r'].
    + injection H as ->. reflexivity.
    + change (lastChar (String d r') = Some "/"%char) in H.
      change (String c (String d r')
              = String c (chopTrailingSlash (String d r') ++ "/")).
      now rewrite <- IH.
Qed.

Lemma chop_without_slash (s : string) :
  lastChar s <> Some "/"%char -> chopTrailingSlash s = s.
Proof.
  induction s as [|c r IH]; intros H.
  - reflexivity.
  - destruct r as [|d r'].
    + simpl. destruct (Ascii.eqb_spec c "/") as [->|_]; [now elim H | reflexivity].
    + change (String c (chopTrailingSlash (String d r'))
              = String c (String d r')).
      now rewrite IH.
Qed.

Lemma chopTrailingSlash_cases (B : string) :
  (Js.charAt B (Js.length B - 1) =? "/") = true
    /\ B = chopTrailingSlash B ++ "/"
  \/ (Js.charAt B (Js.length B - 1) =? "/") = false
    /\ B = chopTrailingSlash B.
Proof.
  rewrite charAt_last.
  destruct (lastChar B) as [c|] eqn:E.
  - rewrite one_char_eqb. destruct (Ascii.eqb_spec c "/") as [->|Hc].
    + left. split; [reflexivity | now apply chop_with_slash].
    + right. split; [reflexivity|]. symmetry. apply chop_without_slash.
      rewrite E. congruence.
  - right. split; [reflexivity|]. symmetry. apply chop_without_slash.
    rewrite E. discriminate.
Qed.

Lemma chopLeadingSlash_cases (P : string) :
  (Js.charAt P 0 =? "/") = true /\ P = "/" ++ chopLeadingSlash P
  \/ (Js.charAt P 0 =? "/") = false /\ P = chopLeadingSlash P.
Proof.
  destruct P as [|c r].
  - right. split; reflexivity.
  - change (Js.charAt (String c r) 0) with (String c "").
    change "/" with (String "/"%char "") at 1 3.
    rewrite one_char_eqb.
    destruct (Ascii.eqb_spec c "/") as [->|Hc].
    + left. split; reflexivity.
    + right. split; [reflexivity|].
      unfold chopLeadingSlash.
      destruct c as [[] [] [] [] [] [] [] []]; try reflexivity. now elim Hc.
Qed.

Lemma oceUrl_chopped (B P : string) :
  oceUrl B P = chopTrailingSlash B ++ "/content/" ++ chopLeadingSlash P.
Proof.
  unfold oceUrl, contentSegment.
  destruct (chopTrailingSlash_cases B) as [[Hb Eb]|[Hb Eb]];
    destruct (chopLeadingSlash_cases P) as [[Hp Ep]|[Hp Ep]];
    rewrite Hb, Hp; cbn [negb];
    rewrite Eb at 1; rewrite Ep at 1;
    rewrite ?append_assoc; reflexivity.
Qed.

(** For every base URL [B] and request path [P], the upstream URL is [B]
    without its trailing slash (if it has one), then exactly ["/content/"],
    then [P] without its leading slash (if it has one).  This URL is the
    one handed to the outbound request. *)
Theorem oceUrl_single_slashes (B P : string) :
  oceUrl B P = chopTrailingSlash B ++ "/content/" ++ chopLeadingSlash P
  /\ (B = chopTrailingSlash B ++ "/" \/ B = chopTrailingSlash B)
  /\ (P = "/" ++ chopLeadingSlash P \/ P = chopLeadingSlash P)
  /\ forall upstream q b authValue,
       exists secure options rest,
         trace (handleContentRequest (Some B) upstream
                  {| method := "GET"; url := P; query := q; body := b |}
                  authValue)
         = CallRequest secure
             (chopTrailingSlash B ++ "/content/" ++ chopLeadingSlash P)
             options :: rest.
Proof.
  split; [apply oceUrl_chopped|].
  split; [destruct (chopTrailingSlash_cases B) as [[_ E]|[_ E]]; tauto|].
  split; [destruct (chopLeadingSlash_cases P) as [[_ E]|[_ E]]; tauto|].
  intros upstream q b authValue.
  rewrite handleContentRequest_GET by reflexivity.
  cbn [url trace fst]. rewrite oceUrl_chopped. eauto.
Qed.

Lemma chop_appended_slash (s : string) : chopTrailingSlash (s ++ "/") = s.
Proof.
  induction s as [|c r IH]; [reflexivity|].
  destruct r as [|d r']; [reflexivity|].
  change (String c (chopTrailingSlash (String d r' ++ "/"))
          = String c (String d r')).
  now rewrite IH.
Qed.

Lemma append_empty (s : string) : s ++ "" = s.
Proof.
  induction s as [|c r IH]; simpl; [reflexivity | now rewrite IH].
Qed.

(** The four combinations, spelled out: a base that does not itself end in
    a slash, with or without one appended, and a path that does not itself
    begin with a slash, with or without one in front, always give the same
    URL. *)
Lemma oceUrl_four_combinations (B0 P0 : string) (trailing leading : bool) :
  lastChar B0 <> Some "/"%char ->
  chopLeadingSlash P0 = P0 ->
  oceUrl (B0 ++ (if trailing then "/" else ""))
         ((if leading then "/" else "") ++ P0)
  = B0 ++ "/content/" ++ P0.
Proof.
  intros HB HP. rewrite oceUrl_chopped.
  destruct trailing, leading;
    rewrite ?chop_appended_slash, ?append_empty, ?chop_without_slash by exact HB;
    cbn [append chopLeadingSlash]; rewrite ?HP; reflexivity.
Qed.

(** C1 fails as stated.  Only one slash is absorbed on each side: a base
    URL that ends in two slashes leaves a double slash in front of the
    segment, and a request path that begins with two slashes leaves one
    behind it. *)
Lemma double_slash_survives :
  oceUrl "http://cms.example.com//" "/assets/logo.png"
  = "http://cms.example.com//content/assets/logo.png"
  /\ occurs "//content"
       (oceUrl "http://cms.example.com//" "/assets/logo.png") = true
  /\ oceUrl "http://cms.example.com" "//assets/logo.png"
     = "http://cms.example.com/content//assets/logo.png"
  /\ occurs "content//"
       (oceUrl "http://cms.example.com" "//assets/logo.png") = true.
Proof. repeat split. Qed.

(** C1, amended: for every base [B0] that does not itself end in a slash
    and every path [P0] that does not itself begin with one, the base given
    as [B0] or [B0/] and the path given as [P0] or [/P0] yield, in all four
    combinations, the URL [B0/content/P0]: exactly one slash on each side
    of the segment. *)
Theorem oceUrl_one_slash_each_side
  (B0 P0 : string) (trailing leading : bool) :
  lastChar B0 <> Some "/"%char ->
  Js.charAt P0 0 <> "/" ->
  oceUrl (B0 ++ (if trailing then "/" else ""))
         ((if leading then "/" else "") ++ P0)
  = B0 ++ "/content/" ++ P0.
Proof.
  intros HB HP. apply oceUrl_four_combinations; [exact HB|].
  destruct (chopLeadingSlash_cases P0) as [[E _]|[_ E]].
  - apply String.eqb_eq in E. now elim HP.
  - now rewrite <- E.
Qed.

Lemma oceUrl_one_slash_each_side_witness :
  lastChar "http://cms.example.com" <> Some "/"%char
  /\ Js.charAt "assets/logo.png" 0 <> "/"
  /\ oceUrl ("http://cms.example.com" ++ "/") ("" ++ "assets/logo.png")
     = "http://cms.example.com" ++ "/content/" ++ "assets/logo.png".
Proof.
  assert (HB : lastChar "http://cms.example.com" <> Some "/"%char)
    by (simpl; discriminate).
  assert (HP : Js.charAt "assets/logo.png" 0 <> "/")
    by (cbv; discriminate).
  split; [exact HB|]. split; [exact HP|].
  apply (oceUrl_one_slash_each_side "http://cms.example.com"
           "assets/logo.png" true false HB HP).
Defined.

(** The two deployments of the specification's scenarios. *)
Example oceUrl_without_trailing_slash :
  oceUrl "http://cms.example.com" "/assets/logo.png"
  = "http://cms.example.com/content/assets/logo.png".
Proof. reflexivity. Qed.

Example oceUrl_with_trailing_slash :
  oceUrl "http://cms.example.com/" "/assets/logo.png"
  = "http://cms.example.com/content/assets/logo.png".
Proof. reflexivity. Qed.

(** ** The content proxy *)

(** The proxy only ever touches the outbound transport and the response. *)
Lemma handleContentRequest_events SERVER_URL upstream req authValue :
  Forall (fun ev => onTransport ev || onResponse ev = true)
    (trace (handleContentRequest SERVER_URL upstream req authValue)).
Proof.
  destruct (String.eqb_spec (method req) "GET") as [Hm|Hm].
  - rewrite handleContentRequest_GET by exact Hm.
    destruct SERVER_URL as [base|]; [|constructor].
    cbn [trace fst]. constructor; [reflexivity|].
    destruct (upstream _ _ _) as [e| |r]; cbn [afterRequest fst].
    + constructor.
    + apply Forall_app. split.
      * apply Forall_map, Forall_forall. reflexivity.
      * repeat constructor.
    + apply Forall_app. split; [apply Forall_map, Forall_forall; reflexivity|].
      constructor; [reflexivity|]. constructor; [reflexivity|].
      apply Forall_app. split; [apply Forall_map, Forall_forall; reflexivity|].
      repeat constructor.
  - rewrite handleContentRequest_other by exact Hm. constructor.
Qed.

Lemma requestOptionsFor_credential (cred : option string) :
  opt_headers (requestOptionsFor (credentialValue cred)) =
  match cred with
  | Some s => if s =? "" then None
              else Some [("Authorization", Js.Str s)]
  | None => None
  end.
Proof.
  destruct cred as [s|]; [|reflexivity].
  unfold requestOptionsFor. simpl. destruct (s =? ""); reflexivity.
Qed.

(** C4: the outbound request of a proxied GET is opened once, with the
    options built from the credential: they carry an [Authorization] header
    equal to the credential exactly when the credential is a non-empty
    string, and no headers at all when it is empty or absent. *)
Theorem authorization_header_iff_credential
  (base : string) upstream (u : string) (q : Js.value) (b : list string)
  (cred : option string) :
  let authValue := credentialValue cred in
  let options := requestOptionsFor authValue in
  (exists secure target rest,
      trace (handleContentRequest (Some base) upstream
               {| method := "GET"; url := u; query := q; body := b |}
               authValue)
      = CallRequest secure target options :: rest
      /\ Forall (fun ev => isCallRequest ev = false) rest)
  /\ (opt_headers options = Some [("Authorization", authValue)]
      <-> exists s, cred = Some s /\ s <> "")
  /\ (opt_headers options = None <-> cred = None \/ cred = Some "").
Proof.
  intros authValue options. split; [|split].
  - rewrite handleContentRequest_GET by reflexivity. cbn [trace fst url].
    do 3 eexists. split; [reflexivity|].
    destruct (upstream _ _ _) as [e| |r]; cbn [afterRequest fst].
    + constructor.
    + apply Forall_app. split; [apply Forall_map, Forall_forall; reflexivity|].
      repeat constructor.
    + apply Forall_app. split; [apply Forall_map, Forall_forall; reflexivity|].
      constructor; [reflexivity|]. constructor; [reflexivity|].
      apply Forall_app. split; [apply Forall_map, Forall_forall; reflexivity|].
      repeat constructor.
  - subst options authValue. rewrite requestOptionsFor_credential.
    destruct cred as [s|]; simpl.
    + destruct (String.eqb_spec s "") as [->|Hs]; split.
      * discriminate.
      * intros (s' & [= <-] & Hs'). now elim Hs'.
      * intros _. eauto.
      * reflexivity.
    + split; [discriminate | intros (s & [=] & _)].
  - subst options authValue. rewrite requestOptionsFor_credential.
    destruct cred as [s|]; simpl.
    + destruct (String.eqb_spec s "") as [->|Hs]; split.
      * auto.
      * reflexivity.
      * discriminate.
      * intros [[=]|[= ->]]. now elim Hs.
    + split; auto.
Qed.

(** C5: a request whose method is not GET makes the proxy return at once:
    no call on the outbound transport, no call on the response; and the
    same holds for the whole middleware, whatever the auth gate says. *)
Theorem non_get_content_request_is_silent
  SERVER_URL upstream (req : request) (authValue : Js.value) :
  method req <> "GET" ->
  handleContentRequest SERVER_URL upstream req authValue = ([], Ok tt)
  /\ respond (trace (handleContentRequest SERVER_URL upstream req authValue))
     = freshResponse
  /\ forall isAuthNeeded getAuthValue,
       Forall (fun ev => onTransport ev || onResponse ev = false)
         (trace (contentMiddleware SERVER_URL upstream isAuthNeeded
                   getAuthValue req)).
Proof.
  intros Hm.
  pose proof (handleContentRequest_other SERVER_URL upstream req) as Hh.
  split; [now apply Hh|]. split; [now rewrite Hh|].
  intros isAuthNeeded getAuthValue. unfold contentMiddleware.
  rewrite bind_emit. cbn [trace fst]. constructor; [reflexivity|].
  destruct isAuthNeeded.
  - rewrite bind_emit. cbn [fst]. constructor; [reflexivity|].
    destruct getAuthValue as [v|reason|]; cbn [then_].
    + rewrite Hh by exact Hm. constructor.
    + repeat constructor.
    + constructor.
  - rewrite Hh by exact Hm. constructor.
Qed.

Lemma non_get_content_request_is_silent_witness :
  handleContentRequest (Some "http://cms.example.com") Sample.contentServer
    Sample.postLogo (Js.Str "Bearer t") = ([], Ok tt).
Proof.
  apply (non_get_content_request_is_silent
           (Some "http://cms.example.com") Sample.contentServer
           Sample.postLogo (Js.Str "Bearer t")).
  simpl. discriminate.
Defined.

(** C10: without [SERVER_URL] a GET request makes the proxy throw a
    [TypeError] while it builds the URL: nothing has been done to the
    transport or to the response by then.  Called directly by the
    middleware (no credential needed) the exception leaves the middleware;
    called from the [then] callback it ends as an unhandled rejection. *)
Theorem missing_SERVER_URL_throws
  upstream (req : request) (authValue : Js.value) :
  method req = "GET" ->
  handleContentRequest None upstream req authValue = ([], Throw Js.TypeError)
  /\ contentMiddleware None upstream false (Js.Resolved authValue) req
     = ([CallIsAuthNeeded], Throw Js.TypeError)
  /\ contentMiddleware None upstream true (Js.Resolved authValue) req
     = ([CallIsAuthNeeded; CallGetAuthValue;
         UnhandledRejection Js.TypeError], Ok tt).
Proof.
  intros Hm.
  assert (Hh : forall v, handleContentRequest None upstream req v
                         = ([], Throw Js.TypeError)).
  { intros v. now rewrite handleContentRequest_GET. }
  split; [apply Hh|]. unfold contentMiddleware. split.
  - rewrite bind_emit, Hh. reflexivity.
  - rewrite !bind_emit. cbn [then_]. rewrite Hh. reflexivity.
Qed.

Lemma missing_SERVER_URL_throws_witness :
  handleContentRequest None Sample.contentServer Sample.getLogo
    (Js.Str "Bearer t") = ([], Throw Js.TypeError).
Proof.
  apply (missing_SERVER_URL_throws Sample.contentServer Sample.getLogo
           (Js.Str "Bearer t")).
  reflexivity.
Defined.

(** ** The auth gate *)

Lemma then_result {A} (p : Js.promise A) (cb : A -> M unit) :
  result (then_ p cb) = Ok tt.
Proof.
  destruct p as [a|reason|]; cbn [then_]; [|reflexivity..].
  destruct (cb a) as [t [[]|e]]; reflexivity.
Qed.

Lemma contentMiddleware_closed SERVER_URL upstream isAuthNeeded getAuthValue req :
  contentMiddleware SERVER_URL upstream isAuthNeeded getAuthValue req =
  if isAuthNeeded
  then (CallIsAuthNeeded :: CallGetAuthValue
          :: trace (then_ getAuthValue
                      (handleContentRequest SERVER_URL upstream req)),
        Ok tt)
  else (CallIsAuthNeeded
          :: trace (handleContentRequest SERVER_URL upstream req (Js.Str "")),
        result (handleContentRequest SERVER_URL upstream req (Js.Str ""))).
Proof.
  unfold contentMiddleware. rewrite bind_emit. destruct isAuthNeeded.
  - rewrite bind_emit, then_result. reflexivity.
  - reflexivity.
Qed.

Lemma not_acquired_by_proxy SERVER_URL upstream req authValue :
  ~ In CallGetAuthValue
      (trace (handleContentRequest SERVER_URL upstream req authValue)).
Proof.
  intros Hin.
  pose proof (handleContentRequest_events SERVER_URL upstream req authValue)
    as Hev.
  rewrite Forall_forall in Hev. specialize (Hev _ Hin). discriminate.
Qed.

(** C7: the middleware calls [getAuthValue] exactly when [isAuthNeeded()]
    says a credential is needed.  When none is needed the proxy runs at once
    with the empty credential; when one is needed the proxy runs after the
    acquisition, with the value it resolved to, and a promise that is still
    pending or was rejected leaves the transport untouched. *)
Theorem credential_acquired_iff_needed
  SERVER_URL upstream (isAuthNeeded : bool)
  (getAuthValue : Js.promise Js.value) (req : request) :
  (In CallGetAuthValue
     (trace (contentMiddleware SERVER_URL upstream isAuthNeeded
               getAuthValue req))
   <-> isAuthNeeded = true)
  /\ trace (contentMiddleware SERVER_URL upstream false getAuthValue req)
     = CallIsAuthNeeded
         :: trace (handleContentRequest SERVER_URL upstream req (Js.Str ""))
  /\ (forall authValue,
        exists rejection,
          trace (contentMiddleware SERVER_URL upstream true
                   (Js.Resolved authValue) req)
          = (CallIsAuthNeeded :: CallGetAuthValue
               :: trace (handleContentRequest SERVER_URL upstream req
                           authValue)
               ++ rejection)%list
          /\ Forall (fun ev => onTransport ev || onResponse ev = false)
               rejection)
  /\ (forall reason,
        Forall (fun ev => onTransport ev = false)
          (trace (contentMiddleware SERVER_URL upstream true
                    (Js.Rejected reason) req)))
  /\ Forall (fun ev => onTransport ev = false)
       (trace (contentMiddleware SERVER_URL upstream true Js.Pending req)).
Proof.
  rewrite !contentMiddleware_closed. repeat split.
  - destruct isAuthNeeded; [reflexivity|].
    cbn [trace fst]. intros [H|H]; [discriminate|].
    now apply not_acquired_by_proxy in H.
  - intros ->. cbn [trace fst]. right. left. reflexivity.
  - intros authValue. rewrite contentMiddleware_closed. cbn [trace fst then_].
    destruct (handleContentRequest SERVER_URL upstream req authValue)
      as [t [[]|e]]; cbn [fst].
    + exists []. rewrite app_nil_r. split; [reflexivity | constructor].
    + exists [UnhandledRejection e]. split; [reflexivity|].
      repeat constructor.
  - intros reason. rewrite contentMiddleware_closed. repeat constructor.
  - repeat constructor.
Qed.

(** C9: when a credential is needed, [getAuthValue] is called for every
    request that reaches the middleware, whatever its method, and the proxy
    (with its method gate) only runs in the [then] callback: a request that
    is not a GET still costs an acquisition, after which nothing more
    happens. *)
Theorem credential_acquired_before_method_gate
  SERVER_URL upstream (req : request) (authValue : Js.value) :
  method req <> "GET" ->
  contentMiddleware SERVER_URL upstream true (Js.Resolved authValue) req
  = ([CallIsAuthNeeded; CallGetAuthValue], Ok tt)
  /\ forall getAuthValue (req' : request),
       trace (contentMiddleware SERVER_URL upstream true getAuthValue req')
       = CallIsAuthNeeded :: CallGetAuthValue
           :: trace (then_ getAuthValue
                       (handleContentRequest SERVER_URL upstream req')).
Proof.
  intros Hm. split.
  - rewrite contentMiddleware_closed. cbn [then_].
    rewrite handleContentRequest_other by exact Hm. reflexivity.
  - intros getAuthValue req'. now rewrite contentMiddleware_closed.
Qed.

Lemma credential_acquired_before_method_gate_witness :
  method Sample.postLogo <> "GET"
  /\ contentMiddleware (Some "http://cms.example.com") Sample.contentServer
       true (Js.Resolved (Js.Str "Bearer t")) Sample.postLogo
     = ([CallIsAuthNeeded; CallGetAuthValue], Ok tt).
Proof.
  assert (H : method Sample.postLogo <> "GET") by (simpl; discriminate).
  split; [exact H|].
  apply (credential_acquired_before_method_gate
           (Some "http://cms.example.com") Sample.contentServer
           Sample.postLogo (Js.Str "Bearer t") H).
Defined.

(** ** The proxied response *)

Lemma respond_skips (t : list event) (r : response) :
  Forall (fun ev => onResponse ev = false) t ->
  fold_left applyEvent t r = r.
Proof.
  induction 1 as [|ev t Hev _ IH]; simpl; [reflexivity|].
  unfold applyEvent at 2. rewrite Hev. exact IH.
Qed.

Lemma filter_all {A} (f : A -> bool) (l : list A) :
  Forall (fun x => f x = true) l -> filter f l = l.
Proof.
  induction 1 as [|x l Hx _ IH]; simpl; [reflexivity|].
  now rewrite Hx, IH.
Qed.

Lemma filter_none {A} (f : A -> bool) (l : list A) :
  Forall (fun x => f x = false) l -> filter f l = [].
Proof.
  induction 1 as [|x l Hx _ IH]; simpl; [reflexivity|].
  now rewrite Hx.
Qed.

(** C8: when the upstream answers a proxied GET, the proxy, after the
    outbound request and the piped request body, makes these calls on the
    inbound response and no other: one [writeHead] with the upstream status
    code and the upstream headers as they came, then the body chunks in
    order, then the end.  The proxy sets, removes or changes no header by
    any other call. *)
Theorem upstream_head_copied_before_body
  (base : string) upstream (req : request) (authValue : Js.value)
  (r : proxyResponse) :
  method req = "GET" ->
  upstream (Js.startsWith (oceUrl base (url req)) "https")
    (oceUrl base (url req)) (requestOptionsFor authValue) = Responds r ->
  let t := trace (handleContentRequest (Some base) upstream req authValue) in
  filter onResponse t
  = ResWriteHead (statusCode r) (resp_headers r)
      :: (map ResWrite (resp_body r) ++ [ResEnd])%list
  /\ exists before,
       t = (before
            ++ ResWriteHead (statusCode r) (resp_headers r)
            :: map ResWrite (resp_body r) ++ [ResEnd])%list
       /\ Forall (fun ev => onResponse ev = false) before.
Proof.
  intros Hm Hup t. subst t.
  rewrite handleContentRequest_GET by exact Hm. cbv zeta. rewrite Hup.
  cbn [trace fst afterRequest].
  assert (Hpre : Forall (fun ev => onResponse ev = false)
                   (map ProxyWrite (body req) ++ [ProxyEnd])).
  { apply Forall_app. split; [apply Forall_map, Forall_forall; reflexivity|].
    repeat constructor. }
  split.
  - cbn [filter onResponse]. rewrite app_assoc, filter_app.
    rewrite (filter_none _ _ Hpre). cbn [app filter onResponse]. f_equal.
    apply filter_all, Forall_app.
    split; [apply Forall_map, Forall_forall; reflexivity | repeat constructor].
  - eexists (_ :: (map ProxyWrite (body req) ++ [ProxyEnd]))%list. split.
    + cbn [app]. now rewrite <- app_assoc.
    + constructor; [reflexivity | exact Hpre].
Qed.

Lemma upstream_head_copied_before_body_witness :
  filter onResponse
    (trace (handleContentRequest (Some "http://cms.example.com")
              Sample.contentServer Sample.getLogo (Js.Str "Bearer t")))
  = [ResWriteHead 200 [("content-type", Js.Str "image/png");
                       ("cache-control", Js.Str "max-age=60")];
     ResWrite "PNG"; ResWrite "DATA"; ResEnd].
Proof.
  apply (upstream_head_copied_before_body "http://cms.example.com"
           Sample.contentServer Sample.getLogo (Js.Str "Bearer t")
           Sample.logoResponse); reflexivity.
Defined.

(** ** The render pipeline *)

Lemma renderAndSend_closed renderer (req : request) (d : Js.value) :
  renderAndSend renderer req d =
  match renderer req (freshContext req d) with
  | Throw e => ([CallRenderer req (freshContext req d)], Throw e)
  | Ok (content, ctx') =>
      (CallRenderer req (freshContext req d)
         :: (if Js.truthy (notFound ctx') then [ResStatus 404] else [])
         ++ [ResSend content],
       Ok tt)%list
  end.
Proof.
  unfold renderAndSend. fold (freshContext req d). rewrite bind_emit.
  destruct (renderer req (freshContext req d)) as [[content ctx']|e].
  - destruct (Js.truthy (notFound ctx')); reflexivity.
  - reflexivity.
Qed.

Lemma renderHandler_closed Routes matchPath renderer (req : request) :
  renderHandler Routes matchPath renderer req =
  let r := activeRoute Routes matchPath req in
  ((prefetchCalls r req
    ++ trace (then_ (prefetchPromise r req) (renderAndSend renderer req)))%list,
   Ok tt).
Proof.
  unfold renderHandler, prefetchCalls, prefetchPromise. cbv zeta.
  destruct (fetchInitialData (activeRoute Routes matchPath req)) as [f|];
    unfold bind, emit, ret, trace;
    match goal with
    | |- context [then_ ?p ?cb] =>
        pose proof (then_result p cb) as Hr;
        destruct (then_ p cb) as [t o]
    end;
    cbn [result snd] in Hr; subst o; reflexivity.
Qed.

Lemma prefetchCalls_off_response (r : route) (req : request) :
  Forall (fun ev => onResponse ev = false) (prefetchCalls r req).
Proof.
  unfold prefetchCalls. destruct (fetchInitialData r); repeat constructor.
Qed.

(** C3: once the prefetch has resolved and the renderer has returned, the
    handler calls [res.status(404)] exactly when the renderer left a truthy
    [notFound] on the context, and then, as its last call, [res.send] with
    the content the renderer returned.  It makes no other call on the
    response: without [notFound] no status is set at all. *)
Theorem render_status_and_body
  Routes matchPath renderer (req : request) (d : Js.value)
  (content : string) (ctx' : context) :
  prefetchPromise (activeRoute Routes matchPath req) req = Js.Resolved d ->
  renderer req (freshContext req d) = Ok (content, ctx') ->
  let t := trace (renderHandler Routes matchPath renderer req) in
  filter onResponse t
  = (if Js.truthy (notFound ctx')
     then [ResStatus 404; ResSend content]
     else [ResSend content])
  /\ t = (prefetchCalls (activeRoute Routes matchPath req) req
          ++ CallRenderer req (freshContext req d)
          :: (if Js.truthy (notFound ctx')
              then [ResStatus 404; ResSend content]
              else [ResSend content]))%list.
Proof.
  intros Hp Hr t. subst t.
  rewrite renderHandler_closed. cbv zeta. cbn [trace fst].
  rewrite Hp. cbn [then_]. rewrite renderAndSend_closed, Hr. cbn [fst].
  pose proof (prefetchCalls_off_response (activeRoute Routes matchPath req) req)
    as Hpre.
  split.
  - rewrite filter_app, (filter_none _ _ Hpre).
    destruct (Js.truthy (notFound ctx')); reflexivity.
  - destruct (Js.truthy (notFound ctx')); reflexivity.
Qed.

Lemma render_status_and_body_witness :
  filter onResponse
    (trace (renderHandler Sample.routes Sample.exactPath Sample.pages
              Sample.getUnknown))
  = [ResStatus 404; ResSend "<html>not found</html>"].
Proof.
  apply (render_status_and_body Sample.routes Sample.exactPath Sample.pages
           Sample.getUnknown Js.Undefined "<html>not found</html>"
           {| data := Js.Undefined; requestQueryParams := Js.Undefined;
              notFound := Js.Boolean true |});
    reflexivity.
Defined.

(** The scenario of the specification: [/about] has no [fetchInitialData],
    the renderer is called with [data = undefined], no status is set. *)
Example render_about :
  renderHandler Sample.routes Sample.exactPath Sample.pages Sample.getAbout
  = ([CallRenderer Sample.getAbout
        (freshContext Sample.getAbout Js.Undefined);
      ResSend "<html>page</html>"], Ok tt).
Proof. reflexivity. Qed.

(** [find] returns the first element that satisfies the test. *)
Lemma find_first {A} (f : A -> bool) (l : list A) :
  match find f l with
  | Some x => exists pre post,
                l = (pre ++ x :: post)%list /\ f x = true
                /\ Forall (fun y => f y = false) pre
  | None => Forall (fun y => f y = false) l
  end.
Proof.
  induction l as [|a l IH]; simpl.
  - constructor.
  - destruct (f a) eqn:Ha.
    + exists [], l. repeat split; [exact Ha | constructor].
    + destruct (find f l) as [x|].
      * destruct IH as (pre & post & -> & Hx & Hpre).
        exists (a :: pre), post. repeat split; [exact Hx|].
        now constructor.
      * now constructor.
Qed.

(** C6: the descriptor the handler uses is the first one of the route table
    that [matchPath] accepts for the request URL, and the empty descriptor,
    which has no [fetchInitialData], when none does; the handler never
    throws.  The renderer is called once the prefetch has resolved, with the
    value [fetchInitialData(req)] resolved to as [data], or with [undefined]
    when the descriptor has no such function. *)
Theorem render_uses_first_matching_route
  Routes matchPath renderer (req : request) (d : Js.value) :
  match fetchInitialData (activeRoute Routes matchPath req) with
  | Some f => f req = Js.Resolved d
  | None => d = Js.Undefined
  end ->
  ((exists pre r post,
       Routes = (pre ++ r :: post)%list
       /\ matchPath (url req) r = true
       /\ Forall (fun x => matchPath (url req) x = false) pre
       /\ activeRoute Routes matchPath req = r)
   \/ (Forall (fun x => matchPath (url req) x = false) Routes
       /\ activeRoute Routes matchPath req = emptyRoute
       /\ fetchInitialData (activeRoute Routes matchPath req) = None))
  /\ result (renderHandler Routes matchPath renderer req) = Ok tt
  /\ exists pre post,
       trace (renderHandler Routes matchPath renderer req)
       = (pre ++ CallRenderer req
                   {| data := d; requestQueryParams := query req;
                      notFound := Js.Undefined |} :: post)%list
       /\ pre = match fetchInitialData (activeRoute Routes matchPath req) with
                | Some _ => [CallFetchInitialData
                               (activeRoute Routes matchPath req) req]
                | None => []
                end
       /\ Forall (fun ev => isCallRenderer ev = false) post.
Proof.
  intros Hd. split; [|split].
  - unfold activeRoute.
    pose proof (find_first (matchPath (url req)) Routes) as Hf.
    destruct (find (matchPath (url req)) Routes) as [r|].
    + left. destruct Hf as (pre & post & E & Hr & Hpre).
      exists pre, r, post. auto.
    + right. auto.
  - now rewrite renderHandler_closed.
  - rewrite renderHandler_closed. cbv zeta. cbn [trace fst].
    assert (Hp : prefetchPromise (activeRoute Routes matchPath req) req
                 = Js.Resolved d).
    { unfold prefetchPromise.
      destruct (fetchInitialData (activeRoute Routes matchPath req));
        [exact Hd | now subst d]. }
    rewrite Hp. cbn [then_]. rewrite renderAndSend_closed.
    fold (freshContext req d). unfold prefetchCalls.
    destruct (renderer req (freshContext req d)) as [[content ctx']|e];
      cbn [fst].
    + eexists _, _. split; [reflexivity|]. split; [reflexivity|].
      destruct (Js.truthy (notFound ctx')); repeat constructor.
    + eexists _, _. split; [reflexivity|]. split; [reflexivity|].
      repeat constructor.
Qed.

Lemma render_uses_first_matching_route_witness :
  exists pre post,
    trace (renderHandler Sample.routes Sample.exactPath Sample.pages
             Sample.getHome)
    = (pre ++ CallRenderer Sample.getHome
                {| data := Js.Str "home"; requestQueryParams := Js.Undefined;
                   notFound := Js.Undefined |} :: post)%list
    /\ pre = [CallFetchInitialData
                (activeRoute Sample.routes Sample.exactPath Sample.getHome)
                Sample.getHome]
    /\ Forall (fun ev => isCallRenderer ev = false) post.
Proof.
  apply (render_uses_first_matching_route Sample.routes Sample.exactPath
           Sample.pages Sample.getHome (Js.Str "home")).
  reflexivity.
Defined.

(** ** The order of the handlers *)

Lemma finalOnThrow_render Routes matchPath renderer (req : request) :
  finalOnThrow req (renderHandler Routes matchPath renderer req)
  = renderHandler Routes matchPath renderer req.
Proof. rewrite renderHandler_closed. reflexivity. Qed.




(** The scenario of the specification: a GET of a content path reaches the
    proxy with the mount cut off its URL. *)
Example dispatch_content_logo :
  dispatch (Some "http://cms.example.com") Sample.contentServer false
    Js.Pending Sample.routes Sample.exactPath Sample.pages Sample.noStatic
    Sample.plainParse
    {| method := "GET"; url := "/content/assets/logo.png";
       query := Js.Undefined; body := [] |}
  = (ContentProxy,
     ([CallIsAuthNeeded;
       CallRequest false "http://cms.example.com/content/assets/logo.png"
         {| opt_headers := None |};
       ProxyEnd;
       ResWriteHead 200 [("content-type", Js.Str "image/png");
                         ("cache-control", Js.Str "max-age=60")];
       ResWrite "PNG"; ResWrite "DATA"; ResEnd], Ok tt)).
Proof. reflexivity. Qed.

(** * Further properties of the handlers *)

(** ** More on the upstream URL *)

Lemma contentSegment_cases (B P : string) :
  contentSegment B P = "content" \/ contentSegment B P = "/content"
  \/ contentSegment B P = "content/" \/ contentSegment B P = "/content/".
Proof.
  unfold contentSegment.
  destruct (Js.charAt B (Js.length B - 1) =? "/");
    destruct (Js.charAt P 0 =? "/"); cbn [negb]; auto.
Qed.

Lemma prefix_cons (a b : ascii) (p s : string) :
  String.prefix (String a p) (String b s)
  = if ascii_dec a b then String.prefix p s else false.
Proof. reflexivity. Qed.

(** A base at least as long as the prefix decides the test alone. *)
Lemma prefix_of_long_base (p B R : string) :
  (String.length p <= String.length B)%nat ->
  String.prefix p (B ++ R) = String.prefix p B.
Proof.
  revert B. induction p as [|a p IH]; intros B Hlen.
  - destruct B; destruct R; reflexivity.
  - destruct B as [|b B']; [simpl in Hlen; lia|].
    cbn [append]. rewrite !prefix_cons.
    destruct (ascii_dec a b); [|reflexivity].
    apply IH. simpl in Hlen. lia.
Qed.

Lemma prefix_of_short_base (p B : string) :
  (String.length B < String.length p)%nat -> String.prefix p B = false.
Proof.
  revert B. induction p as [|a p IH]; intros B Hlen.
  - simpl in Hlen. lia.
  - destruct B as [|b B']; [reflexivity|].
    rewrite prefix_cons. destruct (ascii_dec a b); [|reflexivity].
    apply IH. simpl in Hlen. lia.
Qed.

(** A shorter base followed by a character that the prefix does not
    contain fails the test. *)
Lemma prefix_broken_by (p B R : string) (c : ascii) :
  (String.length B < String.length p)%nat ->
  ~ In c (list_ascii_of_string p) ->
  String.prefix p (B ++ String c R) = false.
Proof.
  revert B. induction p as [|a p IH]; intros B Hlen Hc.
  - simpl in Hlen. lia.
  - destruct B as [|b B']; cbn [append]; rewrite prefix_cons.
    + destruct (ascii_dec a c) as [->|_]; [|reflexivity].
      elim Hc. left. reflexivity.
    + destruct (ascii_dec a b); [|reflexivity].
      apply IH; [simpl in Hlen; lia|].
      intros Hin. apply Hc. right. exact Hin.
Qed.

(** The segment begins with a slash or with the [c] of ["content"]. *)
Lemma contentSegment_head (B P : string) :
  exists c rest,
    contentSegment B P = String c rest
    /\ ~ In c (list_ascii_of_string "https").
Proof.
  destruct (contentSegment_cases B P) as [E|[E|[E|E]]]; rewrite E;
    eexists _, _; (split; [reflexivity|]);
    simpl; intuition discriminate.
Qed.

(** X1: which transport is used depends on the configured base URL alone:
    the constructed URL begins with ["https"] exactly when [SERVER_URL]
    does, whatever the request path is, and this is the flag the outbound
    request of a proxied GET is opened with. *)
Theorem transport_chosen_by_base (B P : string) :
  Js.startsWith (oceUrl B P) "https" = Js.startsWith B "https"
  /\ forall upstream q b authValue,
       exists options rest,
         trace (handleContentRequest (Some B) upstream
                  {| method := "GET"; url := P; query := q; body := b |}
                  authValue)
         = CallRequest (Js.startsWith B "https") (oceUrl B P) options :: rest.
Proof.
  assert (H : Js.startsWith (oceUrl B P) "https" = Js.startsWith B "https").
  { unfold Js.startsWith, oceUrl.
    destruct (Nat.lt_ge_cases (String.length B) (String.length "https"))
      as [Hlt|Hge].
    - rewrite (prefix_of_short_base _ _ Hlt).
      destruct (contentSegment_head B P) as (c & rest & -> & Hc).
      cbn [append]. now apply prefix_broken_by.
    - now apply prefix_of_long_base. }
  split; [exact H|].
  intros upstream q b authValue.
  rewrite handleContentRequest_GET by reflexivity.
  cbv zeta. cbn [url trace fst]. rewrite H. eauto.
Qed.

(** X2: only one slash is absorbed on each side.  A base that ends in two
    slashes keeps one of them in front of the segment, and a path that
    begins with two slashes keeps one of them behind it. *)
Theorem oceUrl_keeps_extra_slashes (B P : string) :
  oceUrl (B ++ "//") P = B ++ "//content/" ++ chopLeadingSlash P
  /\ oceUrl B ("//" ++ P) = chopTrailingSlash B ++ "/content//" ++ P.
Proof.
  rewrite !oceUrl_chopped. split.
  - change "//" with ("/" ++ "/"). rewrite <- (append_assoc B "/" "/").
    rewrite chop_appended_slash. now rewrite append_assoc.
  - reflexivity.
Qed.

(** X3: for a request target in origin form the URL the mounted middleware
    sees begins with a slash, so the test of line 47 adds none: the
    upstream URL is the base without its trailing slash, then ["/content"],
    then the mounted URL with its query string. *)
Theorem mounted_url_needs_no_slash
  (base : string) slowPath (u u' : string) :
  originForm u = true ->
  mountedUrl slowPath u = Some u' ->
  Js.charAt u' 0 = "/"
  /\ oceUrl base u' = chopTrailingSlash base ++ "/content" ++ u'.
Proof.
  intros Ho Hm.
  assert (Hc : Js.charAt u' 0 = "/").
  { unfold mountedUrl, routed in Hm. rewrite Ho in Hm.
    unfold fastMount in Hm.
    destruct (mountLength u) as [n|]; [|discriminate].
    injection Hm as <-.
    destruct (String.eqb_spec
                (Js.charAt (substring n (String.length u - n) u) 0) "/")
      as [E|_]; [exact E | reflexivity]. }
  split; [exact Hc|].
  rewrite oceUrl_chopped.
  destruct (chopLeadingSlash_cases u') as [[_ E]|[E _]].
  - rewrite E at 2. reflexivity.
  - rewrite Hc in E. discriminate.
Qed.

Lemma mounted_url_needs_no_slash_witness :
  mountedUrl Sample.plainParse "/content/assets/logo.png?v=2"
  = Some "/assets/logo.png?v=2"
  /\ oceUrl "http://cms.example.com/" "/assets/logo.png?v=2"
     = "http://cms.example.com/content/assets/logo.png?v=2".
Proof.
  assert (H : mountedUrl Sample.plainParse "/content/assets/logo.png?v=2"
              = Some "/assets/logo.png?v=2") by reflexivity.
  split; [exact H|].
  apply (mounted_url_needs_no_slash "http://cms.example.com/"
           Sample.plainParse "/content/assets/logo.png?v=2" _ eq_refl H).
Defined.

(** ** More on the content proxy *)

Lemma afterRequest_transport (req : request) (tr : transportResult) :
  (forall e, tr <> InvalidUrl e) ->
  filter onTransport (trace (afterRequest req tr))
  = (map ProxyWrite (body req) ++ [ProxyEnd])%list.
Proof.
  intros Hok.
  assert (Hpipe : filter onTransport (map ProxyWrite (body req) ++ [ProxyEnd])
                  = (map ProxyWrite (body req) ++ [ProxyEnd])%list).
  { apply filter_all, Forall_app.
    split; [apply Forall_map, Forall_forall; reflexivity | repeat constructor]. }
  destruct tr as [e| |r]; cbn [afterRequest trace fst].
  - now elim (Hok e).
  - exact Hpipe.
  - rewrite app_assoc, filter_app, Hpipe.
    rewrite (filter_none onTransport); [apply app_nil_r|].
    constructor; [reflexivity|]. apply Forall_app.
    split; [apply Forall_map, Forall_forall; reflexivity | repeat constructor].
Qed.

(** X4: unless the transport refuses the request outright, a proxied GET
    opens one outbound request, writes the chunks of the inbound body to it
    in their order, and ends it: whether or not the upstream ever answers. *)
Theorem request_body_forwarded
  (base : string) upstream (req : request) (authValue : Js.value) :
  method req = "GET" ->
  (forall e,
      upstream (Js.startsWith (oceUrl base (url req)) "https")
        (oceUrl base (url req)) (requestOptionsFor authValue)
      <> InvalidUrl e) ->
  filter onTransport
    (trace (handleContentRequest (Some base) upstream req authValue))
  = CallRequest (Js.startsWith (oceUrl base (url req)) "https")
      (oceUrl base (url req)) (requestOptionsFor authValue)
      :: (map ProxyWrite (body req) ++ [ProxyEnd])%list.
Proof.
  intros Hm Hok. rewrite handleContentRequest_GET by exact Hm.
  cbv zeta. cbn [trace fst filter onTransport]. f_equal.
  now apply afterRequest_transport.
Qed.

Lemma request_body_forwarded_witness :
  filter onTransport
    (trace (handleContentRequest (Some "http://cms.example.com")
              Faulty.silentServer
              {| method := "GET"; url := "/upload"; query := Js.Undefined;
                 body := ["first"; "second"] |} Js.Undefined))
  = [CallRequest false "http://cms.example.com/content/upload"
       {| opt_headers := None |};
     ProxyWrite "first"; ProxyWrite "second"; ProxyEnd].
Proof.
  apply (request_body_forwarded "http://cms.example.com" Faulty.silentServer
           {| method := "GET"; url := "/upload"; query := Js.Undefined;
              body := ["first"; "second"] |} Js.Undefined).
  - reflexivity.
  - intros e. discriminate.
Defined.

(** X5: as long as the upstream has not answered (it never does, or the
    transport refused the request), the proxy makes no call on the inbound
    response: it is left as it was. *)
Theorem no_upstream_answer_no_response
  SERVER_URL upstream (req : request) (authValue : Js.value) :
  (forall secure target options r,
      upstream secure target options <> Responds r) ->
  Forall (fun ev => onResponse ev = false)
    (trace (handleContentRequest SERVER_URL upstream req authValue))
  /\ respond (trace (handleContentRequest SERVER_URL upstream req authValue))
     = freshResponse.
Proof.
  intros Hno.
  assert (H : Forall (fun ev => onResponse ev = false)
                (trace (handleContentRequest SERVER_URL upstream req
                          authValue))).
  { destruct (String.eqb_spec (method req) "GET") as [Hm|Hm].
    - rewrite handleContentRequest_GET by exact Hm.
      destruct SERVER_URL as [base|]; [|constructor].
      cbv zeta. cbn [trace fst]. constructor; [reflexivity|].
      destruct (upstream _ _ _) as [e| |r] eqn:E; cbn [afterRequest fst].
      + constructor.
      + apply Forall_app.
        split; [apply Forall_map, Forall_forall; reflexivity
               | repeat constructor].
      + now elim (Hno _ _ _ _ E).
    - rewrite handleContentRequest_other by exact Hm. constructor. }
  split; [exact H|]. unfold respond. now apply respond_skips.
Qed.

Lemma no_upstream_answer_no_response_witness :
  respond (trace (handleContentRequest (Some "http://cms.example.com")
                    Faulty.silentServer Sample.getLogo (Js.Str "Bearer t")))
  = freshResponse.
Proof.
  apply (no_upstream_answer_no_response (Some "http://cms.example.com")
           Faulty.silentServer Sample.getLogo (Js.Str "Bearer t")).
  intros secure target options r. discriminate.
Defined.

(** X6: the credential never reaches the inbound response.  Two proxied
    requests that differ only in the credential, and that the upstream
    treats alike, make the same calls on the response and leave it in the
    same state. *)
Theorem credential_stays_off_response
  SERVER_URL upstream (req : request) (a1 a2 : Js.value) :
  (forall secure target,
      upstream secure target (requestOptionsFor a1)
      = upstream secure target (requestOptionsFor a2)) ->
  filter onResponse
    (trace (handleContentRequest SERVER_URL upstream req a1))
  = filter onResponse
      (trace (handleContentRequest SERVER_URL upstream req a2))
  /\ respond (trace (handleContentRequest SERVER_URL upstream req a1))
     = respond (trace (handleContentRequest SERVER_URL upstream req a2)).
Proof.
  intros Hsame.
  destruct (String.eqb_spec (method req) "GET") as [Hm|Hm].
  - rewrite !handleContentRequest_GET by exact Hm.
    destruct SERVER_URL as [base|]; [|split; reflexivity].
    cbv zeta. rewrite Hsame. cbn [trace fst].
    split; [reflexivity|].
    unfold respond. cbn [fold_left applyEvent]. reflexivity.
  - rewrite !handleContentRequest_other by exact Hm. split; reflexivity.
Qed.

Lemma credential_stays_off_response_witness :
  respond (trace (handleContentRequest (Some "http://cms.example.com")
                    Sample.contentServer Sample.getLogo (Js.Str "Bearer t")))
  = respond (trace (handleContentRequest (Some "http://cms.example.com")
                      Sample.contentServer Sample.getLogo Js.Undefined)).
Proof.
  apply (credential_stays_off_response (Some "http://cms.example.com")
           Sample.contentServer Sample.getLogo (Js.Str "Bearer t")
           Js.Undefined).
  intros secure target. reflexivity.
Defined.

(** ** More on the content middleware *)

Lemma handleContentRequest_on_content_path SERVER_URL upstream req authValue :
  Forall (fun ev => onContentPath ev = true)
    (trace (handleContentRequest SERVER_URL upstream req authValue)).
Proof.
  destruct (String.eqb_spec (method req) "GET") as [Hm|Hm].
  - rewrite handleContentRequest_GET by exact Hm.
    destruct SERVER_URL as [base|]; [|constructor].
    cbn [trace fst]. constructor; [reflexivity|].
    destruct (upstream _ _ _) as [e| |r]; cbn [afterRequest fst].
    + constructor.
    + apply Forall_app.
      split; [apply Forall_map, Forall_forall; reflexivity
             | repeat constructor].
    + apply Forall_app. split; [apply Forall_map, Forall_forall; reflexivity|].
      constructor; [reflexivity|]. constructor; [reflexivity|].
      apply Forall_app.
      split; [apply Forall_map, Forall_forall; reflexivity
             | repeat constructor].
  - rewrite handleContentRequest_other by exact Hm. constructor.
Qed.

Lemma requestHeaders_app (t t' : list event) :
  requestHeaders (t ++ t') = (requestHeaders t ++ requestHeaders t')%list.
Proof. apply flat_map_app. Qed.

Lemma requestHeaders_none (t : list event) :
  Forall (fun ev => isCallRequest ev = false) t -> requestHeaders t = [].
Proof.
  induction 1 as [|ev t Hev _ IH]; [reflexivity|].
  unfold requestHeaders in *. cbn [flat_map]. rewrite IH.
  destruct ev; try discriminate; reflexivity.
Qed.

Lemma requestHeaders_afterRequest (req : request) (tr : transportResult) :
  requestHeaders (trace (afterRequest req tr)) = [].
Proof.
  apply requestHeaders_none.
  destruct tr as [e| |r]; cbn [afterRequest trace fst].
  - constructor.
  - apply Forall_app.
    split; [apply Forall_map, Forall_forall; reflexivity | repeat constructor].
  - apply Forall_app. split; [apply Forall_map, Forall_forall; reflexivity|].
    constructor; [reflexivity|]. constructor; [reflexivity|].
    apply Forall_app.
    split; [apply Forall_map, Forall_forall; reflexivity | repeat constructor].
Qed.

Lemma requestHeaders_proxy (base : string) upstream req authValue :
  method req = "GET" ->
  requestHeaders
    (trace (handleContentRequest (Some base) upstream req authValue))
  = [opt_headers (requestOptionsFor authValue)].
Proof.
  intros Hm. rewrite handleContentRequest_GET by exact Hm.
  cbv zeta. cbn [trace fst].
  change (requestHeaders (?ev :: ?t)) with
    (requestHeaders [ev] ++ requestHeaders t)%list.
  rewrite requestHeaders_afterRequest. reflexivity.
Qed.

(** X7: through the middleware, a proxied GET opens exactly one outbound
    request.  When no credential is needed it has no [headers] at all; when
    one is needed and [getAuthValue] resolves to the string [s], it carries
    [Authorization: s], or again no headers when [s] is empty. *)
Theorem authorization_through_middleware
  (base : string) upstream (getAuthValue : Js.promise Js.value)
  (req : request) :
  method req = "GET" ->
  requestHeaders
    (trace (contentMiddleware (Some base) upstream false getAuthValue req))
  = [None]
  /\ forall s,
       requestHeaders
         (trace (contentMiddleware (Some base) upstream true
                   (Js.Resolved (Js.Str s)) req))
       = [if s =? "" then None else Some [("Authorization", Js.Str s)]].
Proof.
  intros Hm. split.
  - rewrite contentMiddleware_closed. cbn [trace fst].
    change (requestHeaders (?ev :: ?t)) with
      (requestHeaders [ev] ++ requestHeaders t)%list.
    fold (trace (handleContentRequest (Some base) upstream req (Js.Str ""))).
    rewrite requestHeaders_proxy by exact Hm. reflexivity.
  - intros s. rewrite contentMiddleware_closed. cbn [trace fst then_].
    pose proof (requestHeaders_proxy base upstream req (Js.Str s) Hm) as Hp.
    destruct (handleContentRequest (Some base) upstream req (Js.Str s))
      as [t [[]|e]]; cbn [trace fst] in *.
    + change (requestHeaders (CallIsAuthNeeded :: CallGetAuthValue :: t))
        with (requestHeaders t).
      rewrite Hp. unfold requestOptionsFor. simpl.
      destruct (s =? ""); reflexivity.
    + change (requestHeaders
                (CallIsAuthNeeded :: CallGetAuthValue
                   :: t ++ [UnhandledRejection e]))
        with (requestHeaders (t ++ [UnhandledRejection e])).
      rewrite requestHeaders_app, Hp. unfold requestOptionsFor. simpl.
      destruct (s =? ""); reflexivity.
Qed.

Lemma authorization_through_middleware_witness :
  requestHeaders
    (trace (contentMiddleware (Some "http://cms.example.com")
              Sample.contentServer true (Js.Resolved (Js.Str "Bearer t"))
              Sample.getLogo))
  = [Some [("Authorization", Js.Str "Bearer t")]].
Proof.
  apply (authorization_through_middleware "http://cms.example.com"
           Sample.contentServer Js.Pending Sample.getLogo).
  reflexivity.
Defined.

(** X8: an exception of the proxy leaves the middleware only when no
    credential is needed.  When one is needed the middleware itself always
    returns, and an unhandled rejection is recorded exactly when the proxy
    threw inside the [then] callback or [getAuthValue] was rejected. *)
Theorem credential_path_never_throws
  SERVER_URL upstream (getAuthValue : Js.promise Js.value) (req : request) :
  result (contentMiddleware SERVER_URL upstream true getAuthValue req) = Ok tt
  /\ result (contentMiddleware SERVER_URL upstream false getAuthValue req)
     = result (handleContentRequest SERVER_URL upstream req (Js.Str ""))
  /\ forall e,
       In (UnhandledRejection e)
         (trace (contentMiddleware SERVER_URL upstream true getAuthValue req))
       <-> (exists authValue,
              getAuthValue = Js.Resolved authValue
              /\ result (handleContentRequest SERVER_URL upstream req
                           authValue) = Throw e)
           \/ (exists reason,
                 getAuthValue = Js.Rejected reason /\ e = Js.Thrown reason).
Proof.
  rewrite !contentMiddleware_closed. cbn [result snd trace fst].
  split; [reflexivity|]. split; [reflexivity|].
  intros e. destruct getAuthValue as [v|reason|]; cbn [then_].
  - pose proof (handleContentRequest_on_content_path SERVER_URL upstream req v)
      as Hev.
    destruct (handleContentRequest SERVER_URL upstream req v) as [t [[]|e']]
      eqn:Eh;
      unfold result; cbn [trace fst snd] in *; rewrite Forall_forall in Hev.
    + split.
      * intros [H|[H|H]]; try discriminate.
        apply Hev in H. discriminate.
      * intros [(v' & [= <-] & H)|(r & H & _)]; [|discriminate].
        rewrite Eh in H. discriminate.
    + split.
      * intros [H|[H|H]]; try discriminate.
        apply in_app_or in H. destruct H as [H|[H|[]]].
        -- apply Hev in H. discriminate.
        -- injection H as <-. left. exists v.
           split; [reflexivity | now rewrite Eh].
      * intros [(v' & [= <-] & H)|(r & H & _)]; [|discriminate].
        rewrite Eh in H. injection H as <-.
        right. right. apply in_or_app. right. left. reflexivity.
  - cbn [emit fst]. split.
    + intros [H|[H|[H|[]]]]; try discriminate. injection H as <-.
      right. exists reason. split; reflexivity.
    + intros [(v' & H & _)|(r & H & ->)]; [discriminate|].
      injection H as <-. right. right. left. reflexivity.
  - cbn [ret fst]. split.
    + intros [H|[H|[]]]; discriminate.
    + intros [(v' & H & _)|(r & H & _)]; discriminate.
Qed.

(** ** More on the render pipeline *)

(** Everything the render handler can do, by what the prefetch and the
    renderer turn out to be. *)
Lemma renderHandler_trace Routes matchPath renderer (req : request) :
  trace (renderHandler Routes matchPath renderer req) =
  (prefetchCalls (activeRoute Routes matchPath req) req
   ++ match prefetchPromise (activeRoute Routes matchPath req) req with
      | Js.Resolved d =>
          match renderer req (freshContext req d) with
          | Ok (content, ctx') =>
              CallRenderer req (freshContext req d)
                :: (if Js.truthy (notFound ctx') then [ResStatus 404] else [])
                ++ [ResSend content]
          | Throw e =>
              [CallRenderer req (freshContext req d); UnhandledRejection e]
          end
      | Js.Rejected reason => [UnhandledRejection (Js.Thrown reason)]
      | Js.Pending => []
      end)%list.
Proof.
  rewrite renderHandler_closed. cbv zeta. cbn [trace fst]. f_equal.
  destruct (prefetchPromise (activeRoute Routes matchPath req) req)
    as [d|reason|]; cbn [then_]; [|reflexivity..].
  rewrite renderAndSend_closed.
  destruct (renderer req (freshContext req d)) as [[content ctx']|e];
    reflexivity.
Qed.

(** X9: the renderer runs only after the prefetch has resolved.  While the
    promise of [fetchInitialData] is pending, and when it is rejected, the
    renderer is not called and no call is made on the response. *)
Theorem render_waits_for_prefetch
  Routes matchPath renderer (req : request) :
  (forall d,
      prefetchPromise (activeRoute Routes matchPath req) req
      <> Js.Resolved d) ->
  Forall (fun ev => isCallRenderer ev = false)
    (trace (renderHandler Routes matchPath renderer req))
  /\ Forall (fun ev => onResponse ev = false)
       (trace (renderHandler Routes matchPath renderer req))
  /\ respond (trace (renderHandler Routes matchPath renderer req))
     = freshResponse.
Proof.
  intros Hwait. rewrite renderHandler_trace.
  unfold prefetchCalls.
  destruct (prefetchPromise (activeRoute Routes matchPath req) req)
    as [d|reason|].
  - now elim (Hwait d).
  - destruct (fetchInitialData (activeRoute Routes matchPath req));
      repeat split; repeat constructor.
  - destruct (fetchInitialData (activeRoute Routes matchPath req));
      repeat split; repeat constructor.
Qed.

Lemma render_waits_for_prefetch_witness :
  respond (trace (renderHandler Faulty.slowRoutes Sample.exactPath
                    Sample.pages Sample.getAbout))
  = freshResponse.
Proof.
  apply (render_waits_for_prefetch Faulty.slowRoutes Sample.exactPath
           Sample.pages Sample.getAbout).
  intros d. simpl. discriminate.
Defined.

(** X10: a renderer that throws leaves the request without an answer.  The
    handler has called it once, records the exception as an unhandled
    rejection, returns normally, and makes no call on the response. *)
Theorem renderer_throw_sends_nothing
  Routes matchPath renderer (req : request) (d : Js.value) (e : Js.exn) :
  prefetchPromise (activeRoute Routes matchPath req) req = Js.Resolved d ->
  renderer req (freshContext req d) = Throw e ->
  renderHandler Routes matchPath renderer req
  = ((prefetchCalls (activeRoute Routes matchPath req) req
      ++ [CallRenderer req (freshContext req d); UnhandledRejection e])%list,
     Ok tt)
  /\ respond (trace (renderHandler Routes matchPath renderer req))
     = freshResponse.
Proof.
  intros Hp Hr.
  assert (Ht : trace (renderHandler Routes matchPath renderer req)
               = (prefetchCalls (activeRoute Routes matchPath req) req
                  ++ [CallRenderer req (freshContext req d);
                      UnhandledRejection e])%list).
  { now rewrite renderHandler_trace, Hp, Hr. }
  split.
  - rewrite <- Ht. rewrite renderHandler_closed. reflexivity.
  - rewrite Ht. unfold respond. rewrite fold_left_app.
    rewrite (respond_skips _ _ (prefetchCalls_off_response _ _)).
    reflexivity.
Qed.

Lemma renderer_throw_sends_nothing_witness :
  renderHandler Sample.routes Sample.exactPath Faulty.brokenRenderer
    Sample.getHome
  = ([CallFetchInitialData
        (activeRoute Sample.routes Sample.exactPath Sample.getHome)
        Sample.getHome;
      CallRenderer Sample.getHome
        (freshContext Sample.getHome (Js.Str "home"));
      UnhandledRejection (Js.Thrown (Js.Str "render failed"))], Ok tt).
Proof.
  apply (renderer_throw_sends_nothing Sample.routes Sample.exactPath
           Faulty.brokenRenderer Sample.getHome (Js.Str "home")
           (Js.Thrown (Js.Str "render failed")));
    reflexivity.
Defined.

(** X11: with loaders that return a promise, every run of the render
    handler has this shape: at most one call of [fetchInitialData], that of
    the active route, and then either nothing, or an unhandled rejection,
    or one call of the renderer followed by an unhandled rejection or by
    [res.send], with [res.status(404)] in between or not.  So the handler
    prefetches, renders and sends at most once, sends only after it has
    rendered, and does nothing after it has sent. *)
Theorem render_answers_at_most_once
  Routes matchPath renderer (req : request) :
  exists before after,
    trace (renderHandler Routes matchPath renderer req)
    = (before ++ after)%list
    /\ (before = []
        \/ before = [CallFetchInitialData
                       (activeRoute Routes matchPath req) req])
    /\ (after = []
        \/ (exists reason, after = [UnhandledRejection (Js.Thrown reason)])
        \/ exists d,
             (exists e, after = [CallRenderer req (freshContext req d);
                                 UnhandledRejection e])
             \/ (exists content,
                    after = [CallRenderer req (freshContext req d);
                             ResSend content])
             \/ (exists content,
                    after = [CallRenderer req (freshContext req d);
                             ResStatus 404; ResSend content])).
Proof.
  rewrite renderHandler_trace. eexists _, _. split; [reflexivity|]. split.
  - unfold prefetchCalls.
    destruct (fetchInitialData (activeRoute Routes matchPath req)); auto.
  - destruct (prefetchPromise (activeRoute Routes matchPath req) req)
      as [d|reason|]; [|eauto|auto].
    right. right. exists d.
    destruct (renderer req (freshContext req d)) as [[content ctx']|e];
      [|eauto].
    destruct (Js.truthy (notFound ctx')); cbn [app]; eauto.
Qed.

(** X12: the only [fetchInitialData] the handler ever calls is the one of
    the active route, with the request at hand. *)
Theorem only_active_route_prefetched
  Routes matchPath renderer (req : request) (r' : route) (req' : request) :
  In (CallFetchInitialData r' req')
    (trace (renderHandler Routes matchPath renderer req)) ->
  r' = activeRoute Routes matchPath req
  /\ req' = req
  /\ exists f, fetchInitialData r' = Some f.
Proof.
  rewrite renderHandler_trace. unfold prefetchCalls. intros Hin.
  apply in_app_or in Hin. destruct Hin as [Hin|Hin].
  - destruct (fetchInitialData (activeRoute Routes matchPath req)) as [f|]
      eqn:Ef; [|destruct Hin].
    destruct Hin as [[= <- <-]|[]]. eauto.
  - exfalso.
    destruct (prefetchPromise (activeRoute Routes matchPath req) req)
      as [d|reason|];
      try destruct (renderer req (freshContext req d)) as [[content ctx']|e];
      try destruct (Js.truthy (notFound ctx'));
      cbn [app In] in Hin; intuition discriminate.
Qed.

Lemma only_active_route_prefetched_witness :
  {| path := "/";
     fetchInitialData := Some (fun _ => Js.Resolved (Js.Str "home")) |}
  = activeRoute Sample.routes Sample.exactPath Sample.getHome.
Proof.
  apply (only_active_route_prefetched Sample.routes Sample.exactPath
           Sample.pages Sample.getHome _ Sample.getHome).
  left. reflexivity.
Defined.

(** X13: the only status the render handler ever sets is 404, and it sets
    it exactly when the prefetch resolved and the renderer returned with a
    truthy [notFound] on the context.  It never calls [writeHead], [write]
    or [end], and a failing prefetch or renderer makes it set no status at
    all. *)
Theorem render_sets_status_only_to_404
  Routes matchPath renderer (req : request) :
  let t := trace (renderHandler Routes matchPath renderer req) in
  Forall (fun ev => match ev with
                    | ResStatus code => code = 404%Z
                    | ResWriteHead _ _ | ResWrite _ | ResEnd => False
                    | _ => True
                    end) t
  /\ (In (ResStatus 404) t
      <-> exists d content ctx',
            prefetchPromise (activeRoute Routes matchPath req) req
            = Js.Resolved d
            /\ renderer req (freshContext req d) = Ok (content, ctx')
            /\ Js.truthy (notFound ctx') = true).
Proof.
  intros t. subst t. rewrite renderHandler_trace. split.
  - unfold prefetchCalls.
    destruct (fetchInitialData (activeRoute Routes matchPath req));
      destruct (prefetchPromise (activeRoute Routes matchPath req) req)
        as [d|reason|];
      try destruct (renderer req (freshContext req d)) as [[content ctx']|e];
      try destruct (Js.truthy (notFound ctx'));
      cbn [app];
      repeat first [apply Forall_nil
                   | apply Forall_cons; [first [exact I | reflexivity]|]].
  - assert (Hpre : ~ In (ResStatus 404)
                       (prefetchCalls (activeRoute Routes matchPath req) req)).
    { unfold prefetchCalls.
      destruct (fetchInitialData (activeRoute Routes matchPath req));
        cbn [In]; intuition discriminate. }
    rewrite in_app_iff.
    destruct (prefetchPromise (activeRoute Routes matchPath req) req)
      as [d|reason|].
    + destruct (renderer req (freshContext req d)) as [[content ctx']|e]
        eqn:Er.
      * destruct (Js.truthy (notFound ctx')) eqn:Et; cbn [app In]; split.
        -- intros _. exists d, content, ctx'. auto.
        -- intros _. right. right. left. reflexivity.
        -- intros [H|H]; [now elim Hpre | intuition discriminate].
        -- intros (d' & content' & ctx'' & [= <-] & Hr & Ht).
           rewrite Er in Hr. injection Hr as <- <-. congruence.
      * cbn [In]. split.
        -- intros [H|H]; [now elim Hpre | intuition discriminate].
        -- intros (d' & content' & ctx'' & [= <-] & Hr & _).
           rewrite Er in Hr. discriminate.
    + cbn [In]. split.
      * intros [H|H]; [now elim Hpre | intuition discriminate].
      * intros (d' & content' & ctx'' & [=] & _).
    + cbn [In]. split.
      * intros [H|H]; [now elim Hpre | intuition discriminate].
      * intros (d' & content' & ctx'' & [=] & _).
Qed.

(** ** More on the order of the handlers *)

Lemma contentMiddleware_on_content_path
  SERVER_URL upstream isAuthNeeded getAuthValue (req : request) :
  Forall (fun ev => onContentPath ev = true
                    \/ exists e, ev = UnhandledRejection e)
    (trace (contentMiddleware SERVER_URL upstream isAuthNeeded getAuthValue
              req)).
Proof.
  assert (Hh : forall v,
             Forall (fun ev => onContentPath ev = true
                               \/ exists e, ev = UnhandledRejection e)
               (trace (handleContentRequest SERVER_URL upstream req v))).
  { intros v. eapply Forall_impl;
      [|apply handleContentRequest_on_content_path].
    intros ev H. left. exact H. }
  rewrite contentMiddleware_closed. destruct isAuthNeeded; cbn [trace fst].
  - constructor; [left; reflexivity|]. constructor; [left; reflexivity|].
    destruct getAuthValue as [v|reason|]; cbn [then_].
    + specialize (Hh v).
      destruct (handleContentRequest SERVER_URL upstream req v)
        as [t [[]|e]]; cbn [trace fst] in *.
      * exact Hh.
      * apply Forall_app. split; [exact Hh|].
        constructor; [right; eauto | constructor].
    + constructor; [right; eauto | constructor].
    + constructor.
  - constructor; [left; reflexivity|]. apply Hh.
Qed.

Lemma renderHandler_on_render_path Routes matchPath renderer (req : request) :
  Forall (fun ev => onRenderPath ev = true
                    \/ exists e, ev = UnhandledRejection e)
    (trace (renderHandler Routes matchPath renderer req)).
Proof.
  rewrite renderHandler_trace. unfold prefetchCalls.
  destruct (fetchInitialData (activeRoute Routes matchPath req));
    destruct (prefetchPromise (activeRoute Routes matchPath req) req)
      as [d|reason|];
    try destruct (renderer req (freshContext req d)) as [[content ctx']|e];
    try destruct (Js.truthy (notFound ctx'));
    cbn [app];
    repeat (constructor; [first [left; reflexivity | right; eauto]|]);
    constructor.
Qed.

Lemma finalOnThrow_trace (req : request) (m : M unit) :
  trace (finalOnThrow req m) = trace m
  \/ exists e, trace (finalOnThrow req m)
               = (trace m ++ [FinalError req e])%list.
Proof.
  destruct m as [t [[]|e]]; cbn [finalOnThrow trace fst]; eauto.
Qed.

(** X14: the two paths do not mix.  A request taken by the content
    middleware never reaches the prefetch, the renderer, [res.status] or
    [res.send], also when the middleware throws; a request taken by the
    render handler never reaches the auth gate, the outbound transport or
    [res.writeHead]; a request served as a static file or taken by no
    handler reaches neither. *)
Theorem one_path_per_request
  SERVER_URL upstream isAuthNeeded getAuthValue Routes matchPath renderer
  staticServes slowPath (req : request) :
  let d := dispatch SERVER_URL upstream isAuthNeeded getAuthValue Routes
             matchPath renderer staticServes slowPath req in
  match fst d with
  | ContentProxy =>
      Forall (fun ev => onRenderPath ev = false) (trace (snd d))
  | RenderPipeline =>
      Forall (fun ev => onContentPath ev = false) (trace (snd d))
  | StaticFiles | NoHandler =>
      Forall (fun ev => onRenderPath ev = false /\ onContentPath ev = false)
        (trace (snd d))
  end.
Proof.
  intros d. subst d. unfold dispatch.
  destruct (staticServes req); [repeat constructor|].
  destruct (routed slowPath (url req)) as [[u|]|]; cbn [fst snd].
  - match goal with
    | |- context [finalOnThrow req ?m] =>
        pose proof (contentMiddleware_on_content_path SERVER_URL upstream
                      isAuthNeeded getAuthValue
                      {| method := method req; url := u;
                         query := query req; body := body req |}) as Hev;
        destruct (finalOnThrow_trace req m) as [->|[e ->]]
    end.
    + eapply Forall_impl; [|exact Hev].
      intros ev [H|[e ->]]; [|reflexivity].
      destruct ev; try discriminate; reflexivity.
    + apply Forall_app. split; [|repeat constructor].
      eapply Forall_impl; [|exact Hev].
      intros ev [H|[e' ->]]; [|reflexivity].
      destruct ev; try discriminate; reflexivity.
  - destruct (getRouteHandles (method req)); cbn [fst snd].
    + rewrite finalOnThrow_render.
      eapply Forall_impl; [|apply renderHandler_on_render_path].
      intros ev [H|[e ->]]; [|reflexivity].
      destruct ev; try discriminate; reflexivity.
    + unfold unhandled. destruct (method req =? "OPTIONS"); repeat constructor.
  - repeat constructor.
Qed.

(** X15: a request under the content mount whose method is not GET is left
    without any answer.  The content middleware takes it, nothing is sent
    upstream, no call is made on the response, and since the middleware
    does not pass the request on, neither the render handler nor the
    framework's final handler ever sees it. *)
Theorem non_get_content_request_hangs
  SERVER_URL upstream isAuthNeeded getAuthValue Routes matchPath renderer
  staticServes slowPath (req : request) (u : string) :
  staticServes req = false ->
  mountedUrl slowPath (url req) = Some u ->
  method req <> "GET" ->
  let d := dispatch SERVER_URL upstream isAuthNeeded getAuthValue Routes
             matchPath renderer staticServes slowPath req in
  fst d = ContentProxy
  /\ Forall (fun ev => onAuthGate ev = true
                       \/ exists e, ev = UnhandledRejection e)
       (trace (snd d))
  /\ respond (trace (snd d)) = freshResponse.
Proof.
  intros Hs Hu Hm d. subst d. unfold dispatch. rewrite Hs.
  unfold mountedUrl in Hu.
  destruct (routed slowPath (url req)) as [[u'|]|]; try discriminate.
  injection Hu as ->.
  cbn [fst snd]. split; [reflexivity|].
  rewrite contentMiddleware_closed.
  assert (Hh : forall v,
             handleContentRequest SERVER_URL upstream
               {| method := method req; url := u;
                  query := query req; body := body req |} v
             = ([], Ok tt)).
  { intros v. apply handleContentRequest_other. exact Hm. }
  destruct isAuthNeeded; cbn [finalOnThrow trace fst].
  - destruct getAuthValue as [v|reason|]; cbn [then_ emit ret fst];
      rewrite ?Hh; cbn [fst];
      (split; [repeat (constructor; [first [left; reflexivity
                                           | right; eauto]|]);
               constructor
              | reflexivity]).
  - rewrite Hh. cbn [finalOnThrow trace result fst snd].
    split; [repeat constructor; left; reflexivity | reflexivity].
Qed.

Lemma non_get_content_request_hangs_witness :
  respond
    (trace (snd (dispatch (Some "http://cms.example.com")
                   Sample.contentServer true
                   (Js.Resolved (Js.Str "Bearer t")) Sample.routes
                   Sample.exactPath Sample.pages Sample.noStatic
                   Sample.plainParse
                   {| method := "POST"; url := "/content/assets/logo.png";
                      query := Js.Undefined; body := ["payload"] |})))
  = freshResponse.
Proof.
  apply (non_get_content_request_hangs (Some "http://cms.example.com")
           Sample.contentServer true (Js.Resolved (Js.Str "Bearer t"))
           Sample.routes Sample.exactPath Sample.pages Sample.noStatic
           Sample.plainParse
           {| method := "POST"; url := "/content/assets/logo.png";
              query := Js.Undefined; body := ["payload"] |}
           "/assets/logo.png").
  - reflexivity.
  - reflexivity.
  - simpl. discriminate.
Defined.

(** ** Start-up *)

(** X16: the server listens on 8080 exactly when [EXPRESS_SERVER_PORT] is
    not set or is the empty string; any other value of the variable is
    taken as it is, as a string.  The port is never a falsy value. *)
Theorem port_default (EXPRESS_SERVER_PORT : option string) :
  Js.truthy (port EXPRESS_SERVER_PORT) = true
  /\ (port EXPRESS_SERVER_PORT = Js.Num 8080
      <-> EXPRESS_SERVER_PORT = None \/ EXPRESS_SERVER_PORT = Some "")
  /\ (forall s,
        port EXPRESS_SERVER_PORT = Js.Str s
        <-> EXPRESS_SERVER_PORT = Some s /\ s <> "").
Proof.
  unfold port, jsOr. destruct EXPRESS_SERVER_PORT as [v|]; cbn [envValue].
  - cbn [Js.truthy]. destruct (String.eqb_spec v "") as [->|Hv]; cbn [negb].
    + split; [reflexivity|]. split.
      * split; auto.
      * intros s. split; [discriminate | intros [[= <-] H]; now elim H].
    + split; [simpl; apply String.eqb_neq in Hv; now rewrite Hv|]. split.
      * split; [discriminate | intros [[=]|[= ->]]; now elim Hv].
      * intros s. split; [intros [= <-]; auto | intros [[= <-] _]; reflexivity].
  - split; [reflexivity|]. split.
    + split; auto.
    + intros s. split; [discriminate | intros [[=] _]].
Qed.
